(** * Pixisphere: the partner matching and lead distribution service

    A shallow embedding of [services/matchingService.js] (class
    [MatchingService]) together with the parts of the Mongoose schemas
    [models/Partner.js] and [models/Inquiry.js] it reads and writes, and
    the properties of the matching engine stated over it.

    Conventions of the embedding:
    - a JavaScript number is an exact rational ([Q]); the service only adds,
      multiplies by the constants 2 and 5, takes minima and compares;
    - a string is a [string] of ASCII characters;
    - a Mongo [ObjectId] is a natural number ([N]);
    - the [Partner] collection is the list of its documents in natural
      order, the [Inquiry] collection a finite map from [_id] to document;
    - an [async] method returns an [outcome]: the value it resolves to, or
      the error it rejects with. *)

From Stdlib Require Import QArith Lqa ZArith List String Ascii Bool Lia.
From Stdlib Require Import Permutation Sorted Qround.
From stdpp Require Import base option gmap.

Import ListNotations.
Local Open Scope Q_scope.
Local Open Scope list_scope.

(** ** JavaScript numbers *)

(** Truthiness of a number: every number but zero. *)
Definition truthy (q : Q) : bool := negb (Qeq_bool q 0).

(** [q || d] on numbers. *)
Definition or_else (q d : Q) : Q := if truthy q then q else d.

(** [Math.min(a, b)]. *)
Definition Math_min (a b : Q) : Q := if Qle_bool a b then a else b.

(** [a < b], [a <= b] and [a >= b] as tests. *)
Definition Qlt_bool (a b : Q) : bool := negb (Qle_bool b a).
Definition Qge_bool (a b : Q) : bool := Qle_bool b a.

(** ** JavaScript strings *)

(** [String.prototype.toLowerCase] on ASCII: the letters A to Z move down
    by 32, every other character stays. *)
Definition lower_ascii (c : ascii) : ascii :=
  let n := nat_of_ascii c in
  if ((65 <=? n)%nat && (n <=? 90)%nat)%bool then ascii_of_nat (n + 32) else c.

Fixpoint toLowerCase (s : string) : string :=
  match s with
  | EmptyString => EmptyString
  | String c s' => String (lower_ascii c) (toLowerCase s')
  end.

(** ** Regular expressions: [new RegExp(source, "i")]

    The service builds its city pattern from the inquiry's city name. The
    embedding covers the sources that contain no regular-expression
    metacharacter: such a source compiles to the pattern that matches
    exactly its own characters, up to letter case. Any other source is
    outside the embedding and [new_RegExp_i] answers [None] for it. *)

Definition regex_metachars : list ascii :=
  list_ascii_of_string "\^$.|?*+()[]{}".

Definition is_metachar (c : ascii) : bool :=
  existsb (Ascii.eqb c) regex_metachars.

Fixpoint literal_source (s : string) : bool :=
  match s with
  | EmptyString => true
  | String c s' => negb (is_metachar c) && literal_source s'
  end.

(** A compiled case-insensitive pattern: the literal characters to find. *)
Record RegExp := Literal_i { re_source : string }.

Definition new_RegExp_i (source : string) : option RegExp :=
  if literal_source source then Some (Literal_i source) else None.

(** The pattern matches at the very start of [s]. *)
Fixpoint match_here (p s : string) : bool :=
  match p, s with
  | EmptyString, _ => true
  | String a p', String b s' =>
      Ascii.eqb (lower_ascii a) (lower_ascii b) && match_here p' s'
  | String _ _, EmptyString => false
  end.

(** The pattern is not anchored: it is tried at every position of [s]. *)
Fixpoint match_anywhere (p s : string) : bool :=
  match_here p s ||
  match s with
  | EmptyString => false
  | String _ s' => match_anywhere p s'
  end.

(** [re.test(s)], which is what the store's [$regex] operator evaluates. *)
Definition RegExp_test (re : RegExp) (s : string) : bool :=
  match_anywhere (re_source re) s.

(** Among the sources with a metacharacter the embedding also covers those
    whose only metacharacters are opening parentheses: each opens a group
    that nothing closes, and [new RegExp] throws a [SyntaxError]
    (unterminated group) for them. *)
Fixpoint literal_or_open_paren (s : string) : bool :=
  match s with
  | EmptyString => true
  | String c s' =>
      (Ascii.eqb c "("%char || negb (is_metachar c)) && literal_or_open_paren s'
  end.

Definition unterminated_group (source : string) : bool :=
  literal_or_open_paren source && negb (literal_source source).

(** ** The schemas *)

Abbreviation ObjectId := N.

(** A [Date] is its number of milliseconds since the epoch. *)
Abbreviation Date := Z.

Inductive Category :=
| wedding | maternity | portrait | event | commercial | fashion | product
| real_estate.

Definition Category_eqb (a b : Category) : bool :=
  match a, b with
  | wedding, wedding | maternity, maternity | portrait, portrait
  | event, event | commercial, commercial | fashion, fashion
  | product, product | real_estate, real_estate => true
  | _, _ => false
  end.

Inductive VerificationStatus := pending | verified | rejected.

Definition VerificationStatus_eqb (a b : VerificationStatus) : bool :=
  match a, b with
  | pending, pending | verified, verified | rejected, rejected => true
  | _, _ => false
  end.

Inductive InquiryStatus :=
| status_new | assigned | responded | booked | closed | cancelled.

Inductive Priority := low | medium | high | urgent.

(** [{ min, max }], the shape of a price range and of a budget. *)
Record Range := { min : Q; max : Q }.

Module Partner.

Record BusinessInfo := {
  businessName : string;
  categories : list Category;
  experience : Q;
  priceRange : Range
}.

Record Location := { city : string; state : string; pincode : string }.

Record Rating := { average : Q; count : Q }.

Record t := {
  _id : ObjectId;
  userId : ObjectId;
  businessInfo : BusinessInfo;
  location : Location;
  verification_status : VerificationStatus;
  rating : Rating;
  isActive : bool;
  isFeatured : bool;
  totalBookings : Q;
  createdAt : Date
}.

End Partner.

Module Inquiry.

Record EventDetails := {
  eventDate : Date;
  eventTime : string;
  duration : Q;
  guestCount : option Q
}.

Record Location := { city : string; state : string; venue : string }.

Record Response := {
  message : option string;
  quotation : option Q;
  respondedAt : option Date;
  isAccepted : bool
}.

(** One entry of [assignedPartners]. *)
Record Assignment := {
  partnerId : ObjectId;
  assignedAt : option Date;
  response : option Response
}.

Record t := {
  clientId : ObjectId;
  category : Category;
  eventDetails : EventDetails;
  budget : option Range;
  location : Location;
  requirements : option string;
  status : InquiryStatus;
  assignedPartners : list Assignment;
  selectedPartner : option ObjectId;
  priority : Priority;
  createdAt : Date;
  updatedAt : Date
}.

End Inquiry.

(** ** Outcomes of asynchronous calls *)

(** The error kinds of the engine's taxonomy, and the [SyntaxError] the
    [RegExp] constructor throws for a source that is not a pattern. *)
Inductive Error := NotFound | DataAccessError | SyntaxError.

Inductive outcome (A : Type) :=
| Returned (a : A)
| Thrown (e : Error).

Arguments Returned {A} a.
Arguments Thrown {A} e.

(** [await]: go on with the value, or propagate the rejection. *)
Definition await {A B : Type} (r : outcome A) (k : A -> outcome B) : outcome B :=
  match r with
  | Returned a => k a
  | Thrown e => Thrown e
  end.

(** ** The document store *)

Record Store := {
  (** whether the connection answers; every query on a store that is not
      online rejects with a data-access error *)
  online : bool;
  Partners : list Partner.t;
  Inquiries : gmap ObjectId Inquiry.t
}.

(** *** Sorting *)

(** A stable sort by insertion: [x] goes in front of the first element it
    may precede, and the elements are inserted from the right, so two
    elements that may precede each other keep their order. *)
Section StableSort.
Context {A : Type} (before : A -> A -> bool).

Fixpoint insert_by (x : A) (l : list A) : list A :=
  match l with
  | [] => [x]
  | y :: l' => if before x y then x :: y :: l' else y :: insert_by x l'
  end.

Fixpoint sort_by (l : list A) : list A :=
  match l with
  | [] => []
  | x :: l' => insert_by x (sort_by l')
  end.
End StableSort.

(** [Array.prototype.sort(compareFn)]: stable, [a] stays in front of [b]
    unless [compareFn(a, b) > 0]. *)
Definition Array_sort {A : Type} (compareFn : A -> A -> Q) (l : list A) : list A :=
  sort_by (fun a b => Qle_bool (compareFn a b) 0) l.

(** *** Partner queries *)

(** The filter document built by [findMatchingPartners]. *)
Record MatchCriteria := {
  crit_verification_status : VerificationStatus; (* "verification.status" *)
  crit_isActive : bool;                          (* isActive *)
  crit_category : Category;                      (* "businessInfo.categories" *)
  crit_city : RegExp;                            (* "location.city": { $regex } *)
  (** [$or: [{priceRange.min: {$lte: a}}, {priceRange.max: {$gte: b}}]],
      kept as the pair [(a, b)]; [None] when the key is not set *)
  crit_or : option (Q * Q)
}.

(** The [$or] clause on a partner. *)
Definition or_clause (c : option (Q * Q)) (p : Partner.t) : bool :=
  match c with
  | None => true
  | Some (lte_bound, gte_bound) =>
      Qle_bool (min (Partner.priceRange (Partner.businessInfo p))) lte_bound
      || Qge_bool (max (Partner.priceRange (Partner.businessInfo p))) gte_bound
  end.

(** A document matches a filter when it matches every key of it. An array
    field matches a scalar when it contains it. *)
Definition matches (c : MatchCriteria) (p : Partner.t) : bool :=
  VerificationStatus_eqb (Partner.verification_status p) (crit_verification_status c)
  && Bool.eqb (Partner.isActive p) (crit_isActive c)
  && existsb (Category_eqb (crit_category c)) (Partner.categories (Partner.businessInfo p))
  && RegExp_test (crit_city c) (Partner.city (Partner.location p))
  && or_clause (crit_or c) p.

(** The sort document [{ isFeatured: -1, "rating.average": -1,
    totalBookings: -1, createdAt: -1 }]: every key descending, a later key
    deciding only among documents equal on the earlier ones. On booleans
    [false] sorts below [true]. *)
Definition desc (c : comparison) (rest : comparison) : comparison :=
  match c with
  | Eq => rest
  | Lt => Gt
  | Gt => Lt
  end.

Definition sort_order (a b : Partner.t) : comparison :=
  desc (Bool.compare (Partner.isFeatured a) (Partner.isFeatured b))
  (desc (Partner.average (Partner.rating a) ?= Partner.average (Partner.rating b))
  (desc (Partner.totalBookings a ?= Partner.totalBookings b)
  (desc (Partner.createdAt a ?= Partner.createdAt b)%Z Eq))).

(** Not [Gt]: the first argument may come first. *)
Definition not_Gt (x : comparison) : bool :=
  match x with
  | Gt => false
  | _ => true
  end.

Definition sorts_before (a b : Partner.t) : bool := not_Gt (sort_order a b).

(** Two documents with the same sort keys. *)
Definition same_keys (a b : Partner.t) : bool :=
  match sort_order a b with
  | Eq => true
  | _ => false
  end.

(** [cursor.limit(n)]: at most [n] documents, and [limit(0)] is the same
    as setting no limit. *)
Definition cursor_limit {A : Type} (n : nat) (l : list A) : list A :=
  match n with
  | O => l
  | _ => firstn n l
  end.

(** [Partner.find(criteria).sort({...}).limit(n)], awaited. Documents with
    equal sort keys come in the collection's natural order. The
    [populate("userId", ...)] of the service fills in a field of the
    documents found and selects nothing, so it is left out. *)
Definition Partner_find_sort_limit (st : Store) (c : MatchCriteria) (n : nat)
  : outcome (list Partner.t) :=
  if online st
  then Returned (cursor_limit n (sort_by sorts_before (List.filter (matches c) (Partners st))))
  else Thrown DataAccessError.

(** *** Inquiry updates *)

(** The response an entry of [assignedPartners] has by the schema alone:
    [isAccepted] defaults to [false], nothing else is set. *)
Definition default_response : Inquiry.Response :=
  {| Inquiry.message := None;
     Inquiry.quotation := None;
     Inquiry.respondedAt := None;
     Inquiry.isAccepted := false |}.

(** An entry cast to the sub-schema of [assignedPartners]: an entry
    written without a response is stored with the default one. *)
Definition cast_assignment (a : Inquiry.Assignment) : Inquiry.Assignment :=
  {| Inquiry.partnerId := Inquiry.partnerId a;
     Inquiry.assignedAt := Inquiry.assignedAt a;
     Inquiry.response :=
       match Inquiry.response a with
       | Some r => Some r
       | None => Some default_response
       end |}.

(** The update document of [distributeInquiry]:
    [{ $set: { assignedPartners, status } }]. The entries of the list are
    cast to the sub-schema before they are written. The schema has
    [timestamps: true], so the update also stamps [updatedAt]. *)
Definition set_assignedPartners_status
  (l : list Inquiry.Assignment) (s : InquiryStatus) (stamp : Date)
  (d : Inquiry.t) : Inquiry.t :=
  {| Inquiry.clientId := Inquiry.clientId d;
     Inquiry.category := Inquiry.category d;
     Inquiry.eventDetails := Inquiry.eventDetails d;
     Inquiry.budget := Inquiry.budget d;
     Inquiry.location := Inquiry.location d;
     Inquiry.requirements := Inquiry.requirements d;
     Inquiry.status := s;
     Inquiry.assignedPartners := map cast_assignment l;
     Inquiry.selectedPartner := Inquiry.selectedPartner d;
     Inquiry.priority := Inquiry.priority d;
     Inquiry.createdAt := Inquiry.createdAt d;
     Inquiry.updatedAt := stamp |}.

(** [Inquiry.findByIdAndUpdate(id, update)], awaited: one write to the one
    document with that [_id]. It resolves to the document as it was before
    the update, or to [null] ([None]) when no document has that [_id], in
    which case nothing is written (no upsert). *)
Definition Inquiry_findByIdAndUpdate
  (st : Store) (id : ObjectId) (update : Inquiry.t -> Inquiry.t)
  : Store * outcome (option Inquiry.t) :=
  if online st then
    match Inquiries st !! id with
    | Some d =>
        ({| online := online st;
            Partners := Partners st;
            Inquiries := <[id := update d]> (Inquiries st) |},
         Returned (Some d))
    | None => (st, Returned None)
    end
  else (st, Thrown DataAccessError).

(** ** The matching service *)

(** [calculateMatchScore(partner, inquiry)]. *)
Definition calculateMatchScore (partner : Partner.t) (inquiry : Inquiry.t) : Q :=
  let score := 0 in
  (* Base score for verified partners *)
  let score := score + 10 in
  (* Featured partners get bonus *)
  let score := if Partner.isFeatured partner then score + 20 else score in
  (* Rating bonus *)
  let score :=
    if Qlt_bool 0 (Partner.average (Partner.rating partner))
    then score + Partner.average (Partner.rating partner) * 5
    else score in
  (* Experience bonus *)
  let score :=
    score + Math_min (Partner.experience (Partner.businessInfo partner) * 2) 20 in
  (* Location match (same city) *)
  let score :=
    if String.eqb (toLowerCase (Partner.city (Partner.location partner)))
                  (toLowerCase (Inquiry.city (Inquiry.location inquiry)))
    then score + 15 else score in
  (* Budget compatibility *)
  let score :=
    match Inquiry.budget inquiry with
    | Some budget =>
        let partnerMin := min (Partner.priceRange (Partner.businessInfo partner)) in
        let partnerMax := max (Partner.priceRange (Partner.businessInfo partner)) in
        let inquiryMin := min budget in
        let inquiryMax := max budget in
        (* Check if there's budget overlap *)
        if Qle_bool partnerMin inquiryMax && Qge_bool partnerMax inquiryMin then
          let score := score + 10 in
          (* Bonus for perfect budget fit *)
          if Qge_bool partnerMin inquiryMin && Qle_bool partnerMax inquiryMax
          then score + 5 else score
        else score
    | None => score
    end in
  (* Booking history bonus *)
  let score :=
    if Qlt_bool 0 (Partner.totalBookings partner)
    then score + Math_min (Partner.totalBookings partner) 10
    else score in
  (* Category specialization *)
  let score :=
    if (length (Partner.categories (Partner.businessInfo partner)) <=? 3)%nat
    then score + 5 else score in
  score.

(** The budget filtering step of [findMatchingPartners]: the [$or] key is
    set only for a budget that is present and whose [max] is truthy. *)
Definition budget_clause (inquiry : Inquiry.t) : option (Q * Q) :=
  match Inquiry.budget inquiry with
  | Some budget =>
      if truthy (max budget)
      then Some (max budget, or_else (min budget) 0)
      else None
  | None => None
  end.

(** The filter document of [findMatchingPartners] for an inquiry, once the
    city pattern is compiled. *)
Definition matchCriteria (inquiry : Inquiry.t) (re : RegExp) : MatchCriteria :=
  {| crit_verification_status := verified;
     crit_isActive := true;
     crit_category := Inquiry.category inquiry;
     crit_city := re;
     crit_or := budget_clause inquiry |}.

(** A candidate with its score: [{ partner, score }]. *)
Record Scored := { partner : Partner.t; score : Q }.

(** [findMatchingPartners(inquiry, limit)]; the caller passes the limit
    (the service's default is 5). The city pattern is compiled while the
    filter document is built, before the store is asked: a city that is
    not a pattern makes the call reject with the [SyntaxError], which the
    [catch] logs and throws again. The result is [None] exactly when the
    inquiry's city is a pattern source outside the embedding. *)
Definition findMatchingPartners (st : Store) (inquiry : Inquiry.t) (limit : nat)
  : option (outcome (list ObjectId)) :=
  match new_RegExp_i (Inquiry.city (Inquiry.location inquiry)) with
  | None =>
      if unterminated_group (Inquiry.city (Inquiry.location inquiry))
      then Some (Thrown SyntaxError)
      else None
  | Some re =>
      Some (
        await (Partner_find_sort_limit st (matchCriteria inquiry re) limit)
          (fun partners =>
             (* Apply additional scoring logic *)
             let scoredPartners :=
               map (fun partner =>
                      {| partner := partner;
                         score := calculateMatchScore partner inquiry |})
                   partners in
             (* Sort by score and return partner IDs *)
             Returned
               (map (fun item => Partner._id (partner item))
                    (Array_sort (fun a b => score b - score a) scoredPartners))))
  end.

(** [checkPartnerAvailability(partnerId, eventDate)]. *)
Definition checkPartnerAvailability (partnerId : ObjectId) (eventDate : Date) : bool :=
  true.

(** The object [distributeInquiry] resolves to. *)
Record Distribution := {
  success : bool;
  assignedCount : nat;
  partnerIds : list ObjectId
}.

(** [partnerIds.map(partnerId => ({ partnerId, assignedAt: new Date() }))]:
    the callback for the element at index [k] reads the clock once;
    [clock k] is the time of the [k]th reading. These are the objects the
    service builds, without a response; what is stored is their cast
    ([cast_assignment]). *)
Fixpoint assignments_from (clock : nat -> Date) (k : nat) (ids : list ObjectId)
  : list Inquiry.Assignment :=
  match ids with
  | [] => []
  | partnerId :: ids' =>
      {| Inquiry.partnerId := partnerId;
         Inquiry.assignedAt := Some (clock k);
         Inquiry.response := None |}
      :: assignments_from clock (S k) ids'
  end.

(** [distributeInquiry(inquiryId, partnerIds)]: the store after the call
    and the outcome. The value [findByIdAndUpdate] resolves to is not
    looked at. *)
Definition distributeInquiry
  (st : Store) (clock : nat -> Date) (inquiryId : ObjectId) (ids : list ObjectId)
  : Store * outcome Distribution :=
  let assignedPartners := assignments_from clock 0 ids in
  let '(st', r) :=
    Inquiry_findByIdAndUpdate st inquiryId
      (set_assignedPartners_status assignedPartners assigned (clock (length ids))) in
  (st',
   await r (fun _ =>
     Returned {| success := true;
                 assignedCount := length ids;
                 partnerIds := ids |})).

(** ** Sample documents *)

Definition mk_partner (id : ObjectId) (cats : list Category) (exp : Q)
  (price : Range) (c : string) (v : VerificationStatus) (avg : Q)
  (active featured : bool) (bookings : Q) (created : Date) : Partner.t :=
  {| Partner._id := id;
     Partner.userId := (id + 100)%N;
     Partner.businessInfo :=
       {| Partner.businessName := "Studio";
          Partner.categories := cats;
          Partner.experience := exp;
          Partner.priceRange := price |};
     Partner.location :=
       {| Partner.city := c; Partner.state := "Maharashtra";
          Partner.pincode := "400001" |};
     Partner.verification_status := v;
     Partner.rating := {| Partner.average := avg; Partner.count := 10 |};
     Partner.isActive := active;
     Partner.isFeatured := featured;
     Partner.totalBookings := bookings;
     Partner.createdAt := created |}.

Definition mk_inquiry (cat : Category) (c : string) (b : option Range)
  (s : InquiryStatus) (l : list Inquiry.Assignment) : Inquiry.t :=
  {| Inquiry.clientId := 500%N;
     Inquiry.category := cat;
     Inquiry.eventDetails :=
       {| Inquiry.eventDate := 1800000000000%Z; Inquiry.eventTime := "18:00";
          Inquiry.duration := 8; Inquiry.guestCount := Some 200 |};
     Inquiry.budget := b;
     Inquiry.location :=
       {| Inquiry.city := c; Inquiry.state := "Maharashtra";
          Inquiry.venue := "Grand Ballroom" |};
     Inquiry.requirements := None;
     Inquiry.status := s;
     Inquiry.assignedPartners := l;
     Inquiry.selectedPartner := None;
     Inquiry.priority := medium;
     Inquiry.createdAt := 1700000000000%Z;
     Inquiry.updatedAt := 1700000000000%Z |}.

(** The wedding inquiry in Mumbai with budget 25000 to 75000. *)
Definition inquiry_mumbai : Inquiry.t :=
  mk_inquiry wedding "Mumbai" (Some {| min := 25000; max := 75000 |}) status_new [].

(** Partner A: Mumbai, wedding, verified, rated 4.5, featured, 5 years,
    prices 20000 to 60000, 12 bookings. *)
Definition partner_A : Partner.t :=
  mk_partner 1 [wedding] 5 {| min := 20000; max := 60000 |} "Mumbai"
             verified 4.5 true true 12 1000.

(** Partner B: as strong as a partner gets on everything but the featured
    flag. *)
Definition partner_B : Partner.t :=
  mk_partner 2 [wedding] 10 {| min := 30000; max := 70000 |} "mumbai"
             verified 5 true false 40 2000.

(** Partner C: featured, new, unrated. *)
Definition partner_C : Partner.t :=
  mk_partner 3 [wedding; portrait] 0 {| min := 30000; max := 70000 |} "Mumbai"
             verified 0 true true 0 3000.

(** Partner D: in Navi Mumbai. *)
Definition partner_D : Partner.t :=
  mk_partner 4 [wedding] 3 {| min := 30000; max := 70000 |} "Navi Mumbai"
             verified 4 true false 2 4000.

(** Partner E: priced far above the sample budget. *)
Definition partner_E : Partner.t :=
  mk_partner 5 [wedding] 3 {| min := 100000; max := 200000 |} "Mumbai"
             verified 4 true false 2 5000.

(** A maternity inquiry, already booked, same city and budget as the
    sample. *)
Definition inquiry_other : Inquiry.t :=
  {| Inquiry.clientId := 777%N;
     Inquiry.category := maternity;
     Inquiry.eventDetails :=
       {| Inquiry.eventDate := 1900000000000%Z; Inquiry.eventTime := "09:30";
          Inquiry.duration := 2; Inquiry.guestCount := None |};
     Inquiry.budget := Some {| min := 25000; max := 75000 |};
     Inquiry.location :=
       {| Inquiry.city := "Mumbai"; Inquiry.state := "Goa";
          Inquiry.venue := "Beach" |};
     Inquiry.requirements := Some "outdoor"%string;
     Inquiry.status := booked;
     Inquiry.assignedPartners :=
       [{| Inquiry.partnerId := 2%N; Inquiry.assignedAt := Some 5%Z;
           Inquiry.response := None |}];
     Inquiry.selectedPartner := Some 2%N;
     Inquiry.priority := urgent;
     Inquiry.createdAt := 1%Z;
     Inquiry.updatedAt := 2%Z |}.

Definition clock0 : nat -> Date := fun k => (1700000000500 + Z.of_nat k)%Z.

Definition store_of (ps : list Partner.t) (qs : list (ObjectId * Inquiry.t)) : Store :=
  {| online := true; Partners := ps; Inquiries := list_to_map qs |}.

(** An inquiry that is already assigned to partner 9. *)
Definition inquiry_assigned : Inquiry.t :=
  mk_inquiry portrait "Pune" None responded
    [{| Inquiry.partnerId := 9%N; Inquiry.assignedAt := Some 1699999999000%Z;
        Inquiry.response :=
          Some {| Inquiry.message := Some "We would love to"%string;
                  Inquiry.quotation := Some 45000;
                  Inquiry.respondedAt := Some 1699999999500%Z;
                  Inquiry.isAccepted := false |} |}].

(** A store with five partners and the inquiries 7 and 8. *)
Definition store0 : Store :=
  store_of [partner_A; partner_B; partner_C; partner_D; partner_E]
           [(7%N, inquiry_mumbai); (8%N, inquiry_assigned)].

(** ** The specification's wording, for comparison *)

(** The price test as the specification words it: the partner's price
    range overlaps the budget. *)
Definition spec_price_overlap (budget : Range) (p : Partner.t) : bool :=
  Qle_bool (min (Partner.priceRange (Partner.businessInfo p))) (max budget)
  && Qge_bool (max (Partner.priceRange (Partner.businessInfo p))) (min budget).

(** The location test as the specification words it: the two city names
    are equal up to letter case. *)
Definition spec_city_equal (p : Partner.t) (inquiry : Inquiry.t) : bool :=
  String.eqb (toLowerCase (Partner.city (Partner.location p)))
             (toLowerCase (Inquiry.city (Inquiry.location inquiry))).

(** The candidate record of a partner. *)
Definition scored (inquiry : Inquiry.t) (p : Partner.t) : Scored :=
  {| partner := p; score := calculateMatchScore p inquiry |}.

(** The ranking as the specification words it: score every eligible
    partner, sort all of them by score descending, stably, and then keep
    the first [limit]. *)
Definition spec_rank_then_take
  (st : Store) (inquiry : Inquiry.t) (re : RegExp) (limit : nat) : list ObjectId :=
  map (fun item => Partner._id (partner item))
      (firstn limit
         (Array_sort (fun a b => score b - score a)
            (map (scored inquiry)
               (List.filter (matches (matchCriteria inquiry re)) (Partners st))))).

(** The candidates with a given score. *)
Definition has_score (inquiry : Inquiry.t) (v : Q) (p : Partner.t) : bool :=
  Qeq_bool (calculateMatchScore p inquiry) v.

(** The order the service ranks candidates in: [a] may come before [b]
    unless [b] scores strictly more. *)
Definition ranks_before (inquiry : Inquiry.t) (a b : Partner.t) : bool :=
  Qle_bool (calculateMatchScore b inquiry - calculateMatchScore a inquiry) 0.

(** A three-way comparison that orders its arguments: swapping them
    swaps the answer, [Lt] is transitive and arguments that compare [Eq]
    compare alike with everything. *)
Record ordering {A : Type} (c : A -> A -> comparison) : Prop := {
  ord_swap : forall a b, c b a = CompOpp (c a b);
  ord_lt_trans : forall a b d, c a b = Lt -> c b d = Lt -> c a d = Lt;
  ord_eq_l : forall a b d, c a b = Eq -> c a d = c b d
}.


(** ** Further sample documents and shorthands *)

(** The partners of the store that pass the filter of an inquiry. *)
Definition eligible_partners (st : Store) (inquiry : Inquiry.t) : list Partner.t :=
  List.filter
    (matches (matchCriteria inquiry
                (Literal_i (Inquiry.city (Inquiry.location inquiry)))))
    (Partners st).

(** The sample inquiry with a city that opens a parenthesis. *)
Definition inquiry_open_paren : Inquiry.t :=
  mk_inquiry wedding "Mumbai (" (Some {| min := 25000; max := 75000 |}) status_new [].

(** The sample inquiry without a budget. *)
Definition inquiry_no_budget : Inquiry.t :=
  mk_inquiry wedding "Mumbai" None status_new [].

(** ** The inquiry controller: [createInquiry] *)

(** What a handler answers: [res.status(code).json({ success, message })].
    The [data] of the answer is kept only where a property speaks of it. *)
Record Reply := {
  http_status : nat;
  reply_success : bool;
  reply_message : string
}.


(** ** The lead handlers that read and write the assignment list *)

(** [Partner.findOne({ userId })], awaited: the first partner of the
    collection with that user. *)
Definition Partner_findOne_userId (st : Store) (userId : ObjectId)
  : outcome (option Partner.t) :=
  if online st
  then Returned (List.find (fun p => N.eqb (Partner.userId p) userId) (Partners st))
  else Thrown DataAccessError.

(** [Inquiry.findOneAndUpdate({ _id: id, ...cond }, update, { new: true })],
    awaited: the document with that [_id] is updated when it also meets
    the other conditions of the filter; the call resolves to the updated
    document, or to [null] when no document meets the filter. *)
Definition Inquiry_findOneAndUpdate
  (st : Store) (id : ObjectId) (cond : Inquiry.t -> bool)
  (update : Inquiry.t -> Inquiry.t)
  : Store * outcome (option Inquiry.t) :=
  if online st then
    match Inquiries st !! id with
    | Some d =>
        if cond d
        then ({| online := online st;
                 Partners := Partners st;
                 Inquiries := <[id := update d]> (Inquiries st) |},
              Returned (Some (update d)))
        else (st, Returned None)
    | None => (st, Returned None)
    end
  else (st, Thrown DataAccessError).

(** The filter key ["assignedPartners.partnerId": pid]: some entry of the
    list has that partner. *)
Definition is_assigned (pid : ObjectId) (d : Inquiry.t) : bool :=
  existsb (fun a => N.eqb (Inquiry.partnerId a) pid) (Inquiry.assignedPartners d).

(** An update of ["assignedPartners.$"]: [f] is applied to the first entry
    of the list with the partner of the filter, the others stay. *)
Fixpoint update_first_assigned
  (pid : ObjectId) (f : Inquiry.Assignment -> Inquiry.Assignment)
  (l : list Inquiry.Assignment) : list Inquiry.Assignment :=
  match l with
  | [] => []
  | a :: l' =>
      if N.eqb (Inquiry.partnerId a) pid
      then f a :: l'
      else a :: update_first_assigned pid f l'
  end.

Definition with_assignments_status
  (l : list Inquiry.Assignment) (s : InquiryStatus)
  (selected : option ObjectId) (stamp : Date) (d : Inquiry.t) : Inquiry.t :=
  {| Inquiry.clientId := Inquiry.clientId d;
     Inquiry.category := Inquiry.category d;
     Inquiry.eventDetails := Inquiry.eventDetails d;
     Inquiry.budget := Inquiry.budget d;
     Inquiry.location := Inquiry.location d;
     Inquiry.requirements := Inquiry.requirements d;
     Inquiry.status := s;
     Inquiry.assignedPartners := l;
     Inquiry.selectedPartner := selected;
     Inquiry.priority := Inquiry.priority d;
     Inquiry.createdAt := Inquiry.createdAt d;
     Inquiry.updatedAt := stamp |}.

(** [{ $set: { "assignedPartners.$.response": { message, quotation,
    respondedAt }, status: "responded" } }]. The response object replaces
    the entry's response; its [isAccepted] is the schema's default. *)
Definition set_response
  (pid : ObjectId) (message : option string) (quotation : option Q)
  (respondedAt stamp : Date) (d : Inquiry.t) : Inquiry.t :=
  with_assignments_status
    (update_first_assigned pid
       (fun a =>
          {| Inquiry.partnerId := Inquiry.partnerId a;
             Inquiry.assignedAt := Inquiry.assignedAt a;
             Inquiry.response :=
               Some {| Inquiry.message := message;
                       Inquiry.quotation := quotation;
                       Inquiry.respondedAt := Some respondedAt;
                       Inquiry.isAccepted := false |} |})
       (Inquiry.assignedPartners d))
    responded (Inquiry.selectedPartner d) stamp d.

(** [respondToLead]: [userId] is [req.user.id], [leadId] is
    [req.params.id], [message] and [quotation] come from the body. *)
Definition respondToLead
  (st : Store) (clock : nat -> Date) (userId leadId : ObjectId)
  (message : option string) (quotation : option Q) : Store * Reply :=
  match Partner_findOne_userId st userId with
  | Thrown _ =>
      (st, {| http_status := 500; reply_success := false;
              reply_message := "Error submitting response" |})
  | Returned None =>
      (st, {| http_status := 404; reply_success := false;
              reply_message := "Partner profile not found" |})
  | Returned (Some partner) =>
      match Inquiry_findOneAndUpdate st leadId (is_assigned (Partner._id partner))
              (set_response (Partner._id partner) message quotation
                            (clock 0%nat) (clock 1%nat)) with
      | (st', Thrown _) =>
          (st', {| http_status := 500; reply_success := false;
                   reply_message := "Error submitting response" |})
      | (st', Returned None) =>
          (st', {| http_status := 404; reply_success := false;
                   reply_message := "Lead not found or not assigned to you" |})
      | (st', Returned (Some _)) =>
          (st', {| http_status := 200; reply_success := true;
                   reply_message := "Response submitted successfully" |})
      end
  end.

(** [{ $set: { selectedPartner, status: "booked",
    "assignedPartners.$.response.isAccepted": true } }]: an entry without
    a response gets one that holds the flag only. *)
Definition accept_response (a : Inquiry.Assignment) : Inquiry.Assignment :=
  {| Inquiry.partnerId := Inquiry.partnerId a;
     Inquiry.assignedAt := Inquiry.assignedAt a;
     Inquiry.response :=
       Some match Inquiry.response a with
            | Some r =>
                {| Inquiry.message := Inquiry.message r;
                   Inquiry.quotation := Inquiry.quotation r;
                   Inquiry.respondedAt := Inquiry.respondedAt r;
                   Inquiry.isAccepted := true |}
            | None =>
                {| Inquiry.message := None;
                   Inquiry.quotation := None;
                   Inquiry.respondedAt := None;
                   Inquiry.isAccepted := true |}
            end |}.

Definition set_selected (pid : ObjectId) (stamp : Date) (d : Inquiry.t) : Inquiry.t :=
  with_assignments_status
    (update_first_assigned pid accept_response (Inquiry.assignedPartners d))
    booked (Some pid) stamp d.

(** [{ $inc: { totalBookings: 1 } }] on a partner document. *)
Definition inc_totalBookings (p : Partner.t) : Partner.t :=
  {| Partner._id := Partner._id p;
     Partner.userId := Partner.userId p;
     Partner.businessInfo := Partner.businessInfo p;
     Partner.location := Partner.location p;
     Partner.verification_status := Partner.verification_status p;
     Partner.rating := Partner.rating p;
     Partner.isActive := Partner.isActive p;
     Partner.isFeatured := Partner.isFeatured p;
     Partner.totalBookings := Partner.totalBookings p + 1;
     Partner.createdAt := Partner.createdAt p |}.

(** [Partner.findByIdAndUpdate(id, update)] on the collection: the first
    document with that [_id] is updated, and nothing when there is none. *)
Fixpoint update_partner_by_id
  (id : ObjectId) (update : Partner.t -> Partner.t) (l : list Partner.t)
  : list Partner.t :=
  match l with
  | [] => []
  | p :: l' =>
      if N.eqb (Partner._id p) id
      then update p :: l'
      else p :: update_partner_by_id id update l'
  end.

(** [selectPartner]: [clientId] is [req.user.id], [inquiryId] is
    [req.params.id], [partnerId] comes from the body. The partner's
    booking count is raised after the inquiry is booked, whether or not
    a partner with that id exists. *)
Definition selectPartner
  (st : Store) (clock : nat -> Date) (clientId inquiryId partnerId : ObjectId)
  : Store * Reply :=
  match Inquiry_findOneAndUpdate st inquiryId
          (fun d => N.eqb (Inquiry.clientId d) clientId && is_assigned partnerId d)
          (set_selected partnerId (clock 0%nat)) with
  | (st', Thrown _) =>
      (st', {| http_status := 500; reply_success := false;
               reply_message := "Error selecting partner" |})
  | (st', Returned None) =>
      (st', {| http_status := 404; reply_success := false;
               reply_message :=
                 "Inquiry not found or partner not assigned to this inquiry" |})
  | (st', Returned (Some _)) =>
      ({| online := online st';
          Partners := update_partner_by_id partnerId inc_totalBookings (Partners st');
          Inquiries := Inquiries st' |},
       {| http_status := 200; reply_success := true;
          reply_message := "Partner selected successfully" |})
  end.

(** The statuses [cancelInquiry] excludes:
    [{ $nin: ["booked", "closed", "cancelled"] }]. *)
Definition cancellable (s : InquiryStatus) : bool :=
  match s with
  | booked | closed | cancelled => false
  | _ => true
  end.

(** [cancelInquiry]. Its [$set] also names [cancellationReason] and
    [cancelledAt]; the schema has neither path, so the strict schema drops
    them from the update and only the status is written. *)
Definition cancelInquiry
  (st : Store) (clock : nat -> Date) (clientId inquiryId : ObjectId)
  : Store * Reply :=
  match Inquiry_findOneAndUpdate st inquiryId
          (fun d => N.eqb (Inquiry.clientId d) clientId
                    && cancellable (Inquiry.status d))
          (fun d => with_assignments_status (Inquiry.assignedPartners d) cancelled
                      (Inquiry.selectedPartner d) (clock 1%nat) d) with
  | (st', Thrown _) =>
      (st', {| http_status := 500; reply_success := false;
               reply_message := "Error cancelling inquiry" |})
  | (st', Returned None) =>
      (st', {| http_status := 404; reply_success := false;
               reply_message := "Inquiry not found or cannot be cancelled" |})
  | (st', Returned (Some _)) =>
      (st', {| http_status := 200; reply_success := true;
               reply_message := "Inquiry cancelled successfully" |})
  end.

(** ** The user model: one-time passwords *)

(** [Math.floor] on a number. *)
Definition Math_floor (q : Q) : Z := Qfloor q.

(** The character of a decimal digit. *)
Definition digit_char (d : Z) : ascii := ascii_of_nat (48 + Z.to_nat d).

(** The decimal digits of a natural number in front of [acc], the last
    digit first computed; [fuel] bounds the number of further digits. *)
Fixpoint decimal_digits (fuel : nat) (n : Z) (acc : string) : string :=
  let acc' := String (digit_char (n mod 10)) acc in
  match fuel with
  | O => acc'
  | S fuel' =>
      if (n / 10 =? 0)%Z then acc' else decimal_digits fuel' (n / 10) acc'
  end.

(** [n.toString()] for an integer number, in the range where JavaScript
    prints every digit (below 1e21 in absolute value). A number has at
    most one more decimal digit than its binary logarithm. *)
Definition Number_toString (n : Z) : string :=
  if (n <? 0)%Z
  then String "-" (decimal_digits (Z.to_nat (Z.log2 (- n))) (- n) EmptyString)
  else decimal_digits (Z.to_nat (Z.log2 n)) n EmptyString.

Module User.

Inductive Role := client | partner | admin.

Record Profile := {
  firstName : string;
  lastName : string;
  phone : option string;
  avatar : option string
}.

Record Otp := { code : option string; expiresAt : option Date }.

Record t := {
  email : string;
  password : string;
  role : Role;
  profile : Profile;
  isVerified : bool;
  isActive : bool;
  lastLogin : option Date;
  otp : option Otp
}.

End User.

Definition set_otp (o : User.Otp) (u : User.t) : User.t :=
  {| User.email := User.email u;
     User.password := User.password u;
     User.role := User.role u;
     User.profile := User.profile u;
     User.isVerified := User.isVerified u;
     User.isActive := User.isActive u;
     User.lastLogin := User.lastLogin u;
     User.otp := Some o |}.

(** [user.generateOTP()]: [random] is the value of [Math.random()] and
    [now] the value of [Date.now()]. The user after the call and the code
    returned. *)
Definition generateOTP (random : Q) (now : Date) (u : User.t) : User.t * string :=
  let otp := Number_toString (Math_floor (100000 + random * 900000)) in
  (set_otp {| User.code := Some otp;
              User.expiresAt := Some (now + 10 * 60 * 1000)%Z |} u,
   otp).

(** [user.verifyOTP(candidateOTP)], with [now] the time of [new Date()].
    A missing code and the empty code are both falsy. *)
Definition verifyOTP (u : User.t) (candidateOTP : string) (now : Date) : bool :=
  match User.otp u with
  | None => false
  | Some o =>
      match User.code o, User.expiresAt o with
      | Some c, Some e =>
          if String.eqb c EmptyString then false
          else if (e <? now)%Z then false
          else String.eqb c candidateOTP
      | _, _ => false
      end
  end.

(** ** Pre-save hooks *)

Module Portfolio.

Record Image := { url : string; caption : option string; index : Q }.

Record t := {
  partnerId : ObjectId;
  title : string;
  description : option string;
  category : Category;
  images : list Image;
  tags : list string;
  isActive : bool;
  isFeatured : bool;
  viewCount : Q;
  likeCount : Q
}.

End Portfolio.

(** A hook is modelled by the document it leaves and the arguments of its
    calls of [next], in order: [None] for [next()], [Some msg] for
    [next(new Error(msg))]. *)

(** The hook of the portfolio schema: "Ensure images are sorted by index". *)
Definition Portfolio_pre_save (d : Portfolio.t) : Portfolio.t * list (option string) :=
  (if (0 <? length (Portfolio.images d))%nat
   then {| Portfolio.partnerId := Portfolio.partnerId d;
           Portfolio.title := Portfolio.title d;
           Portfolio.description := Portfolio.description d;
           Portfolio.category := Portfolio.category d;
           Portfolio.images :=
             Array_sort (fun a b => Portfolio.index a - Portfolio.index b)
                        (Portfolio.images d);
           Portfolio.tags := Portfolio.tags d;
           Portfolio.isActive := Portfolio.isActive d;
           Portfolio.isFeatured := Portfolio.isFeatured d;
           Portfolio.viewCount := Portfolio.viewCount d;
           Portfolio.likeCount := Portfolio.likeCount d |}
   else d,
   [None]).

(** The hook of the partner schema: "Validate price range". It calls
    [next] with the error and then, not having returned, once more. *)
Definition Partner_pre_save (p : Partner.t) : list (option string) :=
  if Qlt_bool (max (Partner.priceRange (Partner.businessInfo p)))
              (min (Partner.priceRange (Partner.businessInfo p)))
  then [Some "Minimum price cannot be greater than maximum price"%string; None]
  else [None].

(** The first hook of the inquiry schema: "Validate budget range". *)
Definition Inquiry_pre_save_budget (i : Inquiry.t) : list (option string) :=
  match Inquiry.budget i with
  | Some b =>
      if Qlt_bool (max b) (min b)
      then [Some "Minimum budget cannot be greater than maximum budget"%string; None]
      else [None]
  | None => [None]
  end.

(** The second hook of the inquiry schema: "Validate event date is in
    future". *)
Definition Inquiry_pre_save_date (i : Inquiry.t) (now : Date) : list (option string) :=
  if (Inquiry.eventDate (Inquiry.eventDetails i) <? now)%Z
  then [Some "Event date must be in the future"%string; None]
  else [None].

(** A hook run that passed no error to [next]. *)
Definition no_error (calls : list (option string)) : bool :=
  forallb (fun c => match c with None => true | Some _ => false end) calls.

(** Sample portfolio images. *)
Definition image (n : string) (k : Q) : Portfolio.Image :=
  {| Portfolio.url := n; Portfolio.caption := None; Portfolio.index := k |}.

Definition portfolio0 : Portfolio.t :=
  {| Portfolio.partnerId := 1%N;
     Portfolio.title := "Weddings";
     Portfolio.description := None;
     Portfolio.category := wedding;
     Portfolio.images := [image "c" 2; image "a" 0; image "b" 2; image "d" 1];
     Portfolio.tags := [];
     Portfolio.isActive := true;
     Portfolio.isFeatured := false;
     Portfolio.viewCount := 0;
     Portfolio.likeCount := 0 |}.

Definition user0 : User.t :=
  {| User.email := "client@example.com";
     User.password := "hash";
     User.role := User.client;
     User.profile :=
       {| User.firstName := "Asha"; User.lastName := "Rao";
          User.phone := None; User.avatar := None |};
     User.isVerified := false;
     User.isActive := true;
     User.lastLogin := None;
     User.otp := None |}.

(** * Properties *)

(** ** Numbers and tests *)

Lemma Qlt_bool_iff (a b : Q) : Qlt_bool a b = true <-> a < b.
Proof.
  unfold Qlt_bool. rewrite negb_true_iff. split.
  - intros H. apply Qnot_le_lt. intros Hle.
    apply Qle_bool_iff in Hle. congruence.
  - intros H. destruct (Qle_bool b a) eqn:E; [|reflexivity].
    apply Qle_bool_iff in E. exfalso. eapply Qlt_not_le; eassumption.
Qed.

Lemma Qle_bool_false (a b : Q) : Qle_bool a b = false <-> b < a.
Proof.
  rewrite <- Qlt_bool_iff. unfold Qlt_bool. apply iff_sym, negb_true_iff.
Qed.

Lemma truthy_false (q : Q) : truthy q = false <-> q == 0.
Proof.
  unfold truthy. rewrite negb_false_iff. apply Qeq_bool_iff.
Qed.

Lemma Math_min_le_l (a b : Q) : Math_min a b <= a.
Proof.
  unfold Math_min. destruct (Qle_bool a b) eqn:E.
  - apply Qle_refl.
  - apply Qle_bool_false in E. apply Qlt_le_weak, E.
Qed.

Lemma Math_min_le_r (a b : Q) : Math_min a b <= b.
Proof.
  unfold Math_min. destruct (Qle_bool a b) eqn:E.
  - apply Qle_bool_iff, E.
  - apply Qle_refl.
Qed.

Lemma Math_min_glb (a b c : Q) : c <= a -> c <= b -> c <= Math_min a b.
Proof. intros Ha Hb. unfold Math_min. destruct (Qle_bool a b); assumption. Qed.

Lemma Math_min_comp (a a' b b' : Q) :
  a == a' -> b == b' -> Math_min a b == Math_min a' b'.
Proof.
  intros Ha Hb. unfold Math_min. rewrite Ha, Hb.
  destruct (Qle_bool a' b'); assumption.
Qed.

(** ** The scoring function *)

(** The score is the base credit plus eight bonuses, none of them
    negative when the experience is not. *)
Lemma experience_bonus_nonneg (e : Q) : 0 <= e -> 0 <= Math_min (e * 2) 20.
Proof. intros He. apply Math_min_glb; lra. Qed.

(** C9. For every partner whose rating average, experience and booking
    count are not negative, and every inquiry, the match score is at least
    10, the base credit. *)
Theorem calculateMatchScore_at_least_base (p : Partner.t) (i : Inquiry.t) :
  0 <= Partner.average (Partner.rating p) ->
  0 <= Partner.experience (Partner.businessInfo p) ->
  0 <= Partner.totalBookings p ->
  10 <= calculateMatchScore p i.
Proof.
  intros Hr He Hb. unfold calculateMatchScore.
  pose proof (experience_bonus_nonneg _ He) as Hexp.
  assert (Hbook : Qlt_bool 0 (Partner.totalBookings p) = true ->
                  0 <= Math_min (Partner.totalBookings p) 10)
    by (intros _; apply Math_min_glb; lra).
  destruct (Partner.isFeatured p);
    destruct (Qlt_bool 0 (Partner.average (Partner.rating p)));
    destruct (String.eqb _ _);
    destruct (Inquiry.budget i) as [b|];
    try destruct (Qle_bool _ (max b) && _)%bool;
    try destruct (Qge_bool _ (min b) && _)%bool;
    destruct (Qlt_bool 0 (Partner.totalBookings p));
    try specialize (Hbook eq_refl);
    destruct (_ <=? 3)%nat;
    lra.
Qed.

Lemma calculateMatchScore_at_least_base_witness :
  10 <= calculateMatchScore partner_A inquiry_mumbai.
Proof.
  apply (calculateMatchScore_at_least_base partner_A inquiry_mumbai);
    vm_compute; discriminate.
Defined.

(** C10. The score reads the inquiry through its city and its budget
    only: two inquiries that agree on both get the same score with every
    partner, whatever their category, event details, status, assignments
    or other attributes. *)
Theorem calculateMatchScore_reads_city_and_budget
  (p : Partner.t) (i1 i2 : Inquiry.t) :
  Inquiry.city (Inquiry.location i1) = Inquiry.city (Inquiry.location i2) ->
  Inquiry.budget i1 = Inquiry.budget i2 ->
  calculateMatchScore p i1 = calculateMatchScore p i2.
Proof.
  intros Hcity Hbudget. unfold calculateMatchScore.
  rewrite Hcity, Hbudget. reflexivity.
Qed.

Lemma calculateMatchScore_reads_city_and_budget_witness :
  calculateMatchScore partner_A inquiry_mumbai
  = calculateMatchScore partner_A inquiry_other.
Proof.
  apply (calculateMatchScore_reads_city_and_budget partner_A
           inquiry_mumbai inquiry_other); reflexivity.
Defined.

(** C5 as stated fails. The score of partner A on the sample inquiry is
    not 107.5: the price range 20000 to 60000 starts below the budget's
    25000, so the containment bonus of 5 is not granted. *)
Lemma calculateMatchScore_partner_A_not_107_5 :
  ~ calculateMatchScore partner_A inquiry_mumbai == 107.5.
Proof. vm_compute. discriminate. Qed.

(** C5, amended. For a wedding inquiry in Mumbai with budget 25000 to
    75000 and a partner in Mumbai with the one category wedding, rating
    average 4.5, featured, 5 years of experience, prices 20000 to 60000 and
    12 bookings, the score is exactly 102.5:
    10 + 20 + 22.5 + 10 + 15 + 10 + 0 + 10 + 5. *)
Theorem calculateMatchScore_partner_A (p : Partner.t) (i : Inquiry.t) (b : Range) :
  Inquiry.city (Inquiry.location i) = "Mumbai"%string ->
  Inquiry.budget i = Some b ->
  min b == 25000 -> max b == 75000 ->
  Partner.city (Partner.location p) = "Mumbai"%string ->
  Partner.categories (Partner.businessInfo p) = [wedding] ->
  Partner.average (Partner.rating p) == 4.5 ->
  Partner.isFeatured p = true ->
  Partner.experience (Partner.businessInfo p) == 5 ->
  min (Partner.priceRange (Partner.businessInfo p)) == 20000 ->
  max (Partner.priceRange (Partner.businessInfo p)) == 60000 ->
  Partner.totalBookings p == 12 ->
  calculateMatchScore p i == 102.5.
Proof.
  intros Hic Hb Hbmin Hbmax Hpc Hcats Havg Hfeat Hexp Hpmin Hpmax Hbook.
  unfold calculateMatchScore.
  rewrite Hic, Hb, Hpc, Hcats, Hfeat. cbn [toLowerCase length Nat.leb].
  assert (Hrate : Qlt_bool 0 (Partner.average (Partner.rating p)) = true)
    by (apply Qlt_bool_iff; lra).
  assert (Hover :
    (Qle_bool (min (Partner.priceRange (Partner.businessInfo p))) (max b)
     && Qge_bool (max (Partner.priceRange (Partner.businessInfo p))) (min b))%bool
    = true).
  { apply andb_true_iff. split; apply Qle_bool_iff; lra. }
  assert (Hfit :
    (Qge_bool (min (Partner.priceRange (Partner.businessInfo p))) (min b)
     && Qle_bool (max (Partner.priceRange (Partner.businessInfo p))) (max b))%bool
    = false).
  { apply andb_false_iff. left. apply Qle_bool_false. lra. }
  assert (Hbk : Qlt_bool 0 (Partner.totalBookings p) = true)
    by (apply Qlt_bool_iff; lra).
  rewrite Hrate, Hover, Hfit, Hbk.
  replace (String.eqb _ _) with true by reflexivity.
  rewrite (Math_min_comp _ (5 * 2) 20 20)
    by (rewrite ?Hexp; reflexivity).
  rewrite (Math_min_comp (Partner.totalBookings p) 12 10 10)
    by (rewrite ?Hbook; reflexivity).
  rewrite Havg. vm_compute. reflexivity.
Qed.

Lemma calculateMatchScore_partner_A_witness :
  calculateMatchScore partner_A inquiry_mumbai == 102.5.
Proof.
  apply (calculateMatchScore_partner_A partner_A inquiry_mumbai
           {| min := 25000; max := 75000 |}); reflexivity.
Defined.

(** ** The budget filter *)

(** With price ranges and budgets that are ranges ([min <= max]), the [$or]
    clause lets every partner through: a partner fails it only if its
    prices start above the budget and end below it. *)
Lemma or_clause_lets_every_range_through (i : Inquiry.t) (b : Range) (p : Partner.t) :
  Inquiry.budget i = Some b ->
  min b <= max b ->
  min (Partner.priceRange (Partner.businessInfo p))
    <= max (Partner.priceRange (Partner.businessInfo p)) ->
  or_clause (budget_clause i) p = true.
Proof.
  intros Hb Hrange Hprice. unfold budget_clause. rewrite Hb.
  destruct (truthy (max b)); [|reflexivity].
  cbn [or_clause]. apply orb_true_iff.
  destruct (Qle_bool (min (Partner.priceRange (Partner.businessInfo p))) (max b)) eqn:E;
    [left; reflexivity | right].
  apply Qle_bool_false in E. apply Qle_bool_iff.
  unfold or_else. destruct (truthy (min b)) eqn:T; [lra|].
  apply truthy_false in T. lra.
Qed.

(** An inquiry without a budget sets no price clause. *)
Lemma or_clause_without_budget (i : Inquiry.t) (p : Partner.t) :
  Inquiry.budget i = None -> or_clause (budget_clause i) p = true.
Proof. intros H. unfold budget_clause. now rewrite H. Qed.

(** Neither does a budget whose [max] is 0. *)
Lemma or_clause_zero_max (i : Inquiry.t) (b : Range) (p : Partner.t) :
  Inquiry.budget i = Some b -> max b == 0 ->
  or_clause (budget_clause i) p = true.
Proof.
  intros H Hmax. unfold budget_clause. rewrite H.
  apply truthy_false in Hmax. now rewrite Hmax.
Qed.

(** C3, at a failing input. The sample inquiry has the budget 25000 to
    75000 and partner E charges 100000 to 200000: the ranges do not
    overlap, yet E passes the price test of the filter, and the service
    returns E. *)
Theorem price_test_passes_without_overlap :
  Inquiry.budget inquiry_mumbai = Some {| min := 25000; max := 75000 |}
  /\ spec_price_overlap {| min := 25000; max := 75000 |} partner_E = false
  /\ or_clause (budget_clause inquiry_mumbai) partner_E = true
  /\ findMatchingPartners (store_of [partner_E] []) inquiry_mumbai 5
     = Some (Returned [Partner._id partner_E]).
Proof. repeat split; vm_compute; reflexivity. Qed.

(** ** Distribution *)

Lemma assignments_from_partnerId (clock : nat -> Date) (ids : list ObjectId) :
  forall k, map Inquiry.partnerId (assignments_from clock k ids) = ids.
Proof.
  induction ids as [|id ids IH]; intros k; cbn.
  - reflexivity.
  - f_equal. apply IH.
Qed.

Lemma assignments_from_fresh (clock : nat -> Date) (ids : list ObjectId) :
  forall k,
    Forall (fun a => Inquiry.assignedAt a <> None /\ Inquiry.response a = None)
           (assignments_from clock k ids).
Proof.
  induction ids as [|id ids IH]; intros k; cbn; constructor.
  - split; [discriminate | reflexivity].
  - apply IH.
Qed.

(** The three cases of a call of [distributeInquiry]. *)
Lemma distributeInquiry_offline st clock id ids :
  online st = false ->
  distributeInquiry st clock id ids = (st, Thrown DataAccessError).
Proof.
  intros Hoff. unfold distributeInquiry, Inquiry_findByIdAndUpdate.
  rewrite Hoff. reflexivity.
Qed.

Lemma distributeInquiry_missing st clock id ids :
  online st = true -> Inquiries st !! id = None ->
  distributeInquiry st clock id ids
  = (st, Returned {| success := true; assignedCount := length ids;
                     partnerIds := ids |}).
Proof.
  intros Hon Hnone. unfold distributeInquiry, Inquiry_findByIdAndUpdate.
  rewrite Hon, Hnone. reflexivity.
Qed.

Lemma distributeInquiry_found st clock id ids d :
  online st = true -> Inquiries st !! id = Some d ->
  distributeInquiry st clock id ids
  = ({| online := online st;
        Partners := Partners st;
        Inquiries :=
          <[id := set_assignedPartners_status (assignments_from clock 0 ids)
                    assigned (clock (length ids)) d]> (Inquiries st) |},
     Returned {| success := true; assignedCount := length ids;
                 partnerIds := ids |}).
Proof.
  intros Hon Hsome. unfold distributeInquiry, Inquiry_findByIdAndUpdate.
  rewrite Hon, Hsome. reflexivity.
Qed.

(** C1 as stated fails. Called with an id that no inquiry has, on a store
    that answers, [distributeInquiry] does not fail with [NotFound]: it
    reports success and the number of ids it was given. *)
Lemma distributeInquiry_missing_reports_success :
  Inquiries store0 !! 99%N = None
  /\ snd (distributeInquiry store0 clock0 99 [1%N; 2%N]) <> Thrown NotFound
  /\ snd (distributeInquiry store0 clock0 99 [1%N; 2%N])
     = Returned {| success := true; assignedCount := 2;
                   partnerIds := [1%N; 2%N] |}.
Proof.
  assert (Hnone : Inquiries store0 !! 99%N = None) by (vm_compute; reflexivity).
  rewrite (distributeInquiry_missing store0 clock0 99 [1%N; 2%N] eq_refl Hnone).
  split; [exact Hnone | split; [discriminate | reflexivity]].
Qed.

(** C1, amended. Called with an id that no inquiry has, [distributeInquiry]
    leaves the store as it is: no inquiry gains assignments and no status
    changes. It does not fail with [NotFound]: on a store that answers it
    reports success with the number of ids passed, and it fails, with a
    data-access error, only when the store does not answer. *)
Theorem distributeInquiry_missing_inquiry
  (st : Store) (clock : nat -> Date) (id : ObjectId) (ids : list ObjectId) :
  Inquiries st !! id = None ->
  fst (distributeInquiry st clock id ids) = st
  /\ snd (distributeInquiry st clock id ids)
     = (if online st
        then Returned {| success := true; assignedCount := length ids;
                         partnerIds := ids |}
        else Thrown DataAccessError).
Proof.
  intros Hnone. destruct (online st) eqn:Hon.
  - rewrite (distributeInquiry_missing _ _ _ _ Hon Hnone). split; reflexivity.
  - rewrite (distributeInquiry_offline _ _ _ _ Hon). split; reflexivity.
Qed.

Lemma distributeInquiry_missing_inquiry_witness :
  fst (distributeInquiry store0 clock0 99 [1%N; 2%N]) = store0
  /\ snd (distributeInquiry store0 clock0 99 [1%N; 2%N])
     = Returned {| success := true; assignedCount := 2;
                   partnerIds := [1%N; 2%N] |}.
Proof.
  apply (distributeInquiry_missing_inquiry store0 clock0 99 [1%N; 2%N]).
  vm_compute. reflexivity.
Defined.

(** What [distributeInquiry] stores for the objects it builds. *)
Lemma stored_assignments_partnerId (clock : nat -> Date) (ids : list ObjectId) :
  forall k,
    map Inquiry.partnerId (map cast_assignment (assignments_from clock k ids)) = ids.
Proof.
  intros k. rewrite map_map. cbn [cast_assignment Inquiry.partnerId].
  apply assignments_from_partnerId.
Qed.

Lemma stored_assignments_default (clock : nat -> Date) (ids : list ObjectId) :
  forall k,
    Forall (fun a => Inquiry.assignedAt a <> None
                     /\ Inquiry.response a = Some default_response)
           (map cast_assignment (assignments_from clock k ids)).
Proof.
  induction ids as [|id ids IH]; intros k; cbn; constructor.
  - split; [discriminate | reflexivity].
  - apply IH.
Qed.

(** C6 as stated fails. After inquiry 7 of the sample store is distributed
    to partners 1 and 2, the stored entries do not have an absent
    response: each carries the response the schema gives by default. *)
Lemma distributeInquiry_response_not_absent :
  exists d',
    Inquiries (fst (distributeInquiry store0 clock0 7 [1%N; 2%N])) !! 7%N = Some d'
    /\ ~ Forall (fun a => Inquiry.response a = None) (Inquiry.assignedPartners d').
Proof.
  eexists. split; [vm_compute; reflexivity|].
  intros H. apply List.Forall_inv in H. discriminate H.
Qed.

(** C6, amended. For an inquiry that exists, on a store that answers, after
    [distributeInquiry] the inquiry has the status assigned and its
    assignment list, whatever it was before, has exactly one entry per id
    passed, in the order passed, each with that partner id, an assignment
    time and, in place of an absent response, the response the schema
    gives by default: not accepted, without message, quotation or
    response time. *)
Theorem distributeInquiry_assigns
  (st : Store) (clock : nat -> Date) (id : ObjectId) (ids : list ObjectId)
  (d : Inquiry.t) :
  online st = true ->
  Inquiries st !! id = Some d ->
  exists d',
    Inquiries (fst (distributeInquiry st clock id ids)) !! id = Some d'
    /\ Inquiry.status d' = assigned
    /\ map Inquiry.partnerId (Inquiry.assignedPartners d') = ids
    /\ length (Inquiry.assignedPartners d') = length ids
    /\ Forall (fun a => Inquiry.assignedAt a <> None
                        /\ Inquiry.response a = Some default_response)
              (Inquiry.assignedPartners d').
Proof.
  intros Hon Hsome.
  rewrite (distributeInquiry_found _ _ _ _ _ Hon Hsome). cbn [fst Inquiries].
  eexists. split; [apply lookup_insert_eq|].
  cbn [set_assignedPartners_status Inquiry.status Inquiry.assignedPartners].
  split; [reflexivity|].
  split; [apply stored_assignments_partnerId|].
  split; [|apply stored_assignments_default].
  rewrite <- (stored_assignments_partnerId clock ids 0) at 2.
  symmetry. apply length_map.
Qed.

(** Inquiry 8 of the sample store is assigned to partner 9, who has
    responded; distributing it to partners 1 and 2 replaces that entry. *)
Lemma distributeInquiry_assigns_witness :
  exists d',
    Inquiries (fst (distributeInquiry store0 clock0 8 [1%N; 2%N])) !! 8%N = Some d'
    /\ Inquiry.status d' = assigned
    /\ map Inquiry.partnerId (Inquiry.assignedPartners d') = [1%N; 2%N]
    /\ length (Inquiry.assignedPartners d') = 2%nat
    /\ Forall (fun a => Inquiry.assignedAt a <> None
                        /\ Inquiry.response a = Some default_response)
              (Inquiry.assignedPartners d').
Proof.
  apply (distributeInquiry_assigns store0 clock0 8 [1%N; 2%N] inquiry_assigned).
  - reflexivity.
  - vm_compute. reflexivity.
Defined.

(** C8. [distributeInquiry] writes at most the one inquiry with the id it
    is given: the partner collection and every other inquiry are as
    before, and that inquiry is either untouched or has its assignment
    list and its status set together, in one update. *)
Theorem distributeInquiry_frame
  (st : Store) (clock : nat -> Date) (id : ObjectId) (ids : list ObjectId) :
  let st' := fst (distributeInquiry st clock id ids) in
  Partners st' = Partners st
  /\ online st' = online st
  /\ (forall other, other <> id -> Inquiries st' !! other = Inquiries st !! other)
  /\ (st' = st
      \/ exists d,
           Inquiries st !! id = Some d
           /\ Inquiries st' !! id
              = Some (set_assignedPartners_status
                        (assignments_from clock 0 ids) assigned
                        (clock (length ids)) d)).
Proof.
  destruct (online st) eqn:Hon.
  - destruct (Inquiries st !! id) as [d|] eqn:Hd.
    + rewrite (distributeInquiry_found _ _ _ _ _ Hon Hd). cbn.
      repeat split.
      * assumption.
      * intros other Hne. apply lookup_insert_ne. congruence.
      * right. exists d. split; [reflexivity | apply lookup_insert_eq].
    + rewrite (distributeInquiry_missing _ _ _ _ Hon Hd). cbn.
      repeat split; auto.
  - rewrite (distributeInquiry_offline _ _ _ _ Hon). cbn.
    repeat split; auto.
Qed.

(** ** The location filter *)

Section Patterns.
Local Open Scope string_scope.

Lemma toLowerCase_length (s : string) :
  String.length (toLowerCase s) = String.length s.
Proof. induction s as [|c s IH]; cbn; [reflexivity | f_equal; exact IH]. Qed.

Lemma append_nil (t : string) : "" ++ t = t.
Proof. reflexivity. Qed.

Lemma append_cons (c : ascii) (s t : string) : String c s ++ t = String c (s ++ t).
Proof. reflexivity. Qed.

Lemma append_length (s t : string) :
  String.length (s ++ t) = (String.length s + String.length t)%nat.
Proof.
  induction s as [|c s IH]; [reflexivity|].
  rewrite append_cons. cbn. f_equal. exact IH.
Qed.

(** [match_here p s]: the lowered [s] starts with the lowered [p]. *)
Lemma match_here_spec (p : string) :
  forall s, match_here p s = true
            <-> exists post, toLowerCase s = toLowerCase p ++ post.
Proof.
  induction p as [|a p IH]; intros s.
  - cbn. split; [intros _; now exists (toLowerCase s) | reflexivity].
  - destruct s as [|b s]; cbn [match_here toLowerCase].
    + split; [discriminate | intros [post H]; discriminate].
    + rewrite andb_true_iff, Ascii.eqb_eq, IH. split.
      * intros [Hab [post H]]. exists post.
        rewrite append_cons. now rewrite Hab, H.
      * intros [post H]. rewrite append_cons in H. injection H as Hab H.
        split; [now symmetry | now exists post].
Qed.

(** [match_anywhere p s]: the lowered [p] occurs somewhere in the lowered
    [s]. *)
Lemma match_anywhere_spec (p : string) :
  forall s, match_anywhere p s = true
            <-> exists pre post, toLowerCase s = pre ++ toLowerCase p ++ post.
Proof.
  induction s as [|c s IH].
  - cbn [match_anywhere]. rewrite orb_false_r, match_here_spec. split.
    + intros [post H]. now exists "", post.
    + intros [pre [post H]]. destruct pre as [|x pre]; [|discriminate].
      now exists post.
  - cbn [match_anywhere]. rewrite orb_true_iff, match_here_spec, IH. split.
    + intros [[post H] | [pre [post H]]].
      * now exists "", post.
      * exists (String (lower_ascii c) pre), post.
        rewrite append_cons. cbn [toLowerCase]. now rewrite H.
    + intros [pre [post H]]. destruct pre as [|x pre].
      * left. now exists post.
      * right. rewrite append_cons in H. cbn [toLowerCase] in H.
        injection H as _ H. now exists pre, post.
Qed.

Lemma append_empty_r (s : string) : s ++ "" = s.
Proof.
  induction s as [|c s IH]; [reflexivity|].
  rewrite append_cons. now rewrite IH.
Qed.

Lemma match_anywhere_refl (p s : string) :
  toLowerCase s = toLowerCase p -> match_anywhere p s = true.
Proof.
  intros H. apply match_anywhere_spec. exists "", "".
  now rewrite append_nil, append_empty_r.
Qed.

Lemma match_anywhere_shorter (p s : string) :
  (String.length s < String.length p)%nat -> match_anywhere p s = false.
Proof.
  intros Hlen. destruct (match_anywhere p s) eqn:E; [|reflexivity].
  apply match_anywhere_spec in E. destruct E as [pre [post H]].
  apply (f_equal String.length) in H.
  rewrite !append_length, !toLowerCase_length in H. lia.
Qed.

End Patterns.

Lemma new_RegExp_i_source (source : string) (re : RegExp) :
  new_RegExp_i source = Some re -> re_source re = source.
Proof.
  unfold new_RegExp_i. destruct (literal_source source); [|discriminate].
  intros H. injection H as <-. reflexivity.
Qed.

Lemma new_RegExp_i_literal (source : string) :
  literal_source source = true -> new_RegExp_i source = Some (Literal_i source).
Proof. intros H. unfold new_RegExp_i. now rewrite H. Qed.

(** C4 as stated fails. A partner in Navi Mumbai passes the location test
    of an inquiry in Mumbai, although the two city names are not equal up to case; so the
    test is not case-insensitive equality. *)
Lemma location_test_is_not_equality :
  ~ (forall (p : Partner.t) (i : Inquiry.t) (re : RegExp),
       new_RegExp_i (Inquiry.city (Inquiry.location i)) = Some re ->
       (RegExp_test (crit_city (matchCriteria i re)) (Partner.city (Partner.location p))
        = true
        <-> spec_city_equal p i = true)).
Proof.
  intros H.
  specialize (H partner_D inquiry_mumbai (Literal_i "Mumbai") eq_refl).
  destruct H as [H _]. specialize (H eq_refl). vm_compute in H. discriminate.
Qed.

(** C4, amended. The inquiry's city is used as an unanchored,
    case-insensitive pattern: for an inquiry city without pattern
    metacharacters, a partner passes the location test exactly when the
    inquiry city occurs in the partner's city, up to letter case. So a
    partner whose city equals the inquiry city up to case passes, a partner
    whose city properly contains the inquiry city passes as well, and a
    partner whose city is shorter than the inquiry city, a proper
    substring of it for one, does not. *)
Theorem location_test_is_containment
  (p : Partner.t) (i : Inquiry.t) (re : RegExp) :
  new_RegExp_i (Inquiry.city (Inquiry.location i)) = Some re ->
  let test := RegExp_test (crit_city (matchCriteria i re))
                          (Partner.city (Partner.location p)) in
  (test = true
   <-> exists pre post,
         toLowerCase (Partner.city (Partner.location p))
         = (pre ++ toLowerCase (Inquiry.city (Inquiry.location i)) ++ post)%string)
  /\ (spec_city_equal p i = true -> test = true)
  /\ ((String.length (Partner.city (Partner.location p))
       < String.length (Inquiry.city (Inquiry.location i)))%nat -> test = false).
Proof.
  intros Hre test. subst test. unfold RegExp_test. cbn [crit_city matchCriteria].
  rewrite (new_RegExp_i_source _ _ Hre).
  split; [apply match_anywhere_spec|].
  split; [|apply match_anywhere_shorter].
  unfold spec_city_equal. rewrite String.eqb_eq. apply match_anywhere_refl.
Qed.

Lemma location_test_is_containment_witness :
  let test := RegExp_test (crit_city (matchCriteria inquiry_mumbai (Literal_i "Mumbai")))
                          (Partner.city (Partner.location partner_D)) in
  (test = true
   <-> exists pre post,
         toLowerCase (Partner.city (Partner.location partner_D))
         = (pre ++ toLowerCase (Inquiry.city (Inquiry.location inquiry_mumbai))
                ++ post)%string)
  /\ (spec_city_equal partner_D inquiry_mumbai = true -> test = true)
  /\ ((String.length (Partner.city (Partner.location partner_D))
       < String.length (Inquiry.city (Inquiry.location inquiry_mumbai)))%nat
      -> test = false).
Proof.
  apply (location_test_is_containment partner_D inquiry_mumbai (Literal_i "Mumbai")).
  reflexivity.
Defined.

(** ** Stable sorting *)

Section StableSortFacts.
Context {A : Type} (before : A -> A -> bool).

Lemma insert_by_Permutation (x : A) (l : list A) :
  Permutation (x :: l) (insert_by before x l).
Proof.
  induction l as [|y l IH]; cbn.
  - reflexivity.
  - destruct (before x y); [reflexivity|].
    rewrite perm_swap. apply perm_skip, IH.
Qed.

Lemma sort_by_Permutation (l : list A) : Permutation l (sort_by before l).
Proof.
  induction l as [|x l IH]; cbn.
  - reflexivity.
  - rewrite <- insert_by_Permutation. apply perm_skip, IH.
Qed.

Lemma sort_by_length (l : list A) : length (sort_by before l) = length l.
Proof. symmetry. apply Permutation_length, sort_by_Permutation. Qed.

(** Stability. Let [same] pick a class of elements any two of which may
    precede each other. Sorting does not reorder the class. *)
Section Stability.
Context (same : A -> bool).
Hypothesis same_tied : forall x y, same x = true -> same y = true -> before x y = true.

Lemma insert_by_filter (x : A) (l : list A) :
  List.filter same (insert_by before x l) = List.filter same (x :: l).
Proof.
  induction l as [|y l IH]; [reflexivity|].
  cbn [insert_by]. destruct (before x y) eqn:E; [reflexivity|].
  cbn [List.filter] in *. rewrite IH.
  destruct (same x) eqn:Hx, (same y) eqn:Hy; try reflexivity.
  rewrite (same_tied x y Hx Hy) in E. discriminate.
Qed.

Lemma sort_by_filter (l : list A) :
  List.filter same (sort_by before l) = List.filter same l.
Proof.
  induction l as [|x l IH]; [reflexivity|].
  cbn [sort_by]. rewrite insert_by_filter. cbn [List.filter]. now rewrite IH.
Qed.
End Stability.

(** Sortedness, for a [before] that is total and transitive. *)
Section Sortedness.
Hypothesis before_total : forall x y, before x y = true \/ before y x = true.
Hypothesis before_trans :
  forall x y z, before x y = true -> before y z = true -> before x z = true.

Lemma insert_by_sorted (x : A) (l : list A) :
  StronglySorted (fun a b => before a b = true) l ->
  StronglySorted (fun a b => before a b = true) (insert_by before x l).
Proof.
  induction 1 as [|y l Hs IH Hy]; cbn.
  - repeat constructor.
  - destruct (before x y) eqn:E.
    + constructor; [now constructor|].
      constructor; [exact E|].
      eapply List.Forall_impl; [|exact Hy]. cbn. intros z Hz.
      eapply before_trans; eassumption.
    + constructor; [exact IH|].
      eapply Permutation_Forall; [apply insert_by_Permutation|].
      constructor; [|exact Hy].
      destruct (before_total x y) as [H|H]; [congruence | exact H].
Qed.

Lemma sort_by_sorted (l : list A) :
  StronglySorted (fun a b => before a b = true) (sort_by before l).
Proof.
  induction l as [|x l IH]; cbn.
  - constructor.
  - apply insert_by_sorted, IH.
Qed.
End Sortedness.

End StableSortFacts.

(** Sorting commutes with a map that respects the order. *)
Lemma sort_by_map {A B : Type} (f : A -> B)
  (beforeA : A -> A -> bool) (beforeB : B -> B -> bool) :
  (forall x y, beforeB (f x) (f y) = beforeA x y) ->
  forall l, sort_by beforeB (map f l) = map f (sort_by beforeA l).
Proof.
  intros Hf. induction l as [|x l IH]; [reflexivity|].
  cbn [map sort_by]. rewrite IH. generalize (sort_by beforeA l). clear IH.
  intros s. induction s as [|y s IHs]; [reflexivity|].
  cbn [map insert_by]. rewrite Hf. destruct (beforeA x y); [reflexivity|].
  cbn [map]. now rewrite IHs.
Qed.

(** ** The store's sort order *)

Section Orderings.
Context {A : Type}.

Lemma ord_eq_r (c : A -> A -> comparison) (Hc : ordering c) :
  forall a b d, c b d = Eq -> c a b = c a d.
Proof.
  intros a b d H.
  rewrite (ord_swap c Hc b a), (ord_swap c Hc d a). f_equal.
  apply (ord_eq_l c Hc). exact H.
Qed.

Lemma not_Gt_total (c : A -> A -> comparison) (Hc : ordering c) :
  forall a b, not_Gt (c a b) = true \/ not_Gt (c b a) = true.
Proof.
  intros a b. rewrite (ord_swap c Hc a b). destruct (c a b); cbn; auto.
Qed.

Lemma not_Gt_trans (c : A -> A -> comparison) (Hc : ordering c) :
  forall a b d,
    not_Gt (c a b) = true -> not_Gt (c b d) = true -> not_Gt (c a d) = true.
Proof.
  intros a b d Hab Hbd.
  destruct (c a b) eqn:Eab; [| |discriminate].
  - now rewrite (ord_eq_l c Hc a b d Eab).
  - destruct (c b d) eqn:Ebd; [| |discriminate].
    + now rewrite <- (ord_eq_r c Hc a b d Ebd), Eab.
    + now rewrite (ord_lt_trans c Hc a b d Eab Ebd).
Qed.

(** A descending key in front of an ordering is an ordering. *)
Lemma ordering_desc (k rest : A -> A -> comparison) :
  ordering k -> ordering rest -> ordering (fun a b => desc (k a b) (rest a b)).
Proof.
  intros Hk Hr. split.
  - intros a b. rewrite (ord_swap k Hk a b), (ord_swap rest Hr a b).
    destruct (k a b); reflexivity.
  - intros a b d. unfold desc.
    destruct (k a b) eqn:Eab; [| discriminate |].
    + rewrite (ord_eq_l k Hk a b d Eab).
      destruct (k b d) eqn:Ebd; [| discriminate | reflexivity].
      apply (ord_lt_trans rest Hr).
    + destruct (k b d) eqn:Ebd; [| discriminate |]; intros _ _.
      * now rewrite <- (ord_eq_r k Hk a b d Ebd), Eab.
      * assert (H : k d a = Lt).
        { apply (ord_lt_trans k Hk d b a).
          - now rewrite (ord_swap k Hk b d), Ebd.
          - now rewrite (ord_swap k Hk a b), Eab. }
        rewrite (ord_swap k Hk d a), H. reflexivity.
  - intros a b d. unfold desc.
    destruct (k a b) eqn:Eab; try discriminate.
    rewrite (ord_eq_l k Hk a b d Eab). intros H.
    now rewrite (ord_eq_l rest Hr a b d H).
Qed.

Lemma ordering_Eq : ordering (fun _ _ : A => Eq).
Proof. split; [reflexivity | discriminate | reflexivity]. Qed.

End Orderings.

Lemma ordering_bool {A : Type} (f : A -> bool) :
  ordering (fun a b => Bool.compare (f a) (f b)).
Proof.
  split; intros a b; [| intros d | intros d];
    destruct (f a), (f b); try destruct (f d); cbn; congruence.
Qed.

Lemma ordering_Z {A : Type} (f : A -> Z) :
  ordering (fun a b => (f a ?= f b)%Z).
Proof.
  split.
  - intros a b. apply Z.compare_antisym.
  - intros a b d. rewrite !Z.compare_lt_iff. lia.
  - intros a b d H. apply Z.compare_eq in H. now rewrite H.
Qed.

Lemma ordering_Q {A : Type} (f : A -> Q) :
  ordering (fun a b => f a ?= f b).
Proof.
  split.
  - intros a b. symmetry. apply Qcompare_antisym.
  - intros a b d. rewrite <- !Qlt_alt. apply Qlt_trans.
  - intros a b d H. apply Qeq_alt in H. now rewrite H.
Qed.

Lemma ordering_sort_order : ordering sort_order.
Proof.
  unfold sort_order.
  apply (ordering_desc (fun a b => Bool.compare (Partner.isFeatured a) (Partner.isFeatured b))).
  { apply ordering_bool. }
  apply (ordering_desc
           (fun a b => Partner.average (Partner.rating a) ?= Partner.average (Partner.rating b))).
  { apply (ordering_Q (fun a => Partner.average (Partner.rating a))). }
  apply (ordering_desc (fun a b => Partner.totalBookings a ?= Partner.totalBookings b)).
  { apply (ordering_Q Partner.totalBookings). }
  apply (ordering_desc (fun a b => (Partner.createdAt a ?= Partner.createdAt b)%Z)).
  { apply ordering_Z. }
  apply ordering_Eq.
Qed.

Lemma sorts_before_not_Gt (a b : Partner.t) :
  sorts_before a b = not_Gt (sort_order a b).
Proof. reflexivity. Qed.

(** What [sorts_before] means: featured partners first; among equally
    featured ones the better rated first; then the more booked; then the
    more recently created. *)
Lemma sorts_before_featured (a b : Partner.t) :
  Partner.isFeatured a = true -> Partner.isFeatured b = false ->
  sorts_before a b = true /\ sorts_before b a = false.
Proof.
  intros Ha Hb. unfold sorts_before, sort_order. rewrite Ha, Hb.
  split; reflexivity.
Qed.

(** The documents a query returns are in the store's sort order. *)
Lemma sort_by_sorts_before_sorted (l : list Partner.t) :
  StronglySorted (fun a b => sorts_before a b = true) (sort_by sorts_before l).
Proof.
  apply sort_by_sorted.
  - intros x y. rewrite !sorts_before_not_Gt.
    apply (not_Gt_total sort_order ordering_sort_order).
  - intros x y z. rewrite !sorts_before_not_Gt.
    apply (not_Gt_trans sort_order ordering_sort_order).
Qed.

Lemma same_keys_tied (r x y : Partner.t) :
  same_keys r x = true -> same_keys r y = true -> sorts_before x y = true.
Proof.
  unfold same_keys, sorts_before. intros Hx Hy.
  destruct (sort_order r x) eqn:Ex; try discriminate.
  destruct (sort_order r y) eqn:Ey; try discriminate.
  rewrite <- (ord_eq_l sort_order ordering_sort_order r x y Ex), Ey.
  reflexivity.
Qed.

(** ** Ranking by score *)

Lemma ranks_before_iff (i : Inquiry.t) (a b : Partner.t) :
  ranks_before i a b = true <-> calculateMatchScore b i <= calculateMatchScore a i.
Proof. unfold ranks_before. rewrite Qle_bool_iff. split; intros H; lra. Qed.

Lemma ranks_before_total (i : Inquiry.t) (a b : Partner.t) :
  ranks_before i a b = true \/ ranks_before i b a = true.
Proof.
  rewrite !ranks_before_iff.
  destruct (Qlt_le_dec (calculateMatchScore a i) (calculateMatchScore b i)) as [H|H];
    [right; apply Qlt_le_weak, H | left; exact H].
Qed.

Lemma ranks_before_trans (i : Inquiry.t) (a b d : Partner.t) :
  ranks_before i a b = true -> ranks_before i b d = true -> ranks_before i a d = true.
Proof. rewrite !ranks_before_iff. intros H1 H2. lra. Qed.

Lemma has_score_tied (i : Inquiry.t) (v : Q) (a b : Partner.t) :
  has_score i v a = true -> has_score i v b = true -> ranks_before i a b = true.
Proof.
  unfold has_score. rewrite !Qeq_bool_iff, ranks_before_iff.
  intros Ha Hb. rewrite Ha, Hb. apply Qle_refl.
Qed.

(** The ranking step of [findMatchingPartners] is the stable sort of the
    candidates by [ranks_before]. *)
Lemma ranking_step (i : Inquiry.t) (candidates : list Partner.t) :
  map (fun item => Partner._id (partner item))
      (Array_sort (fun a b => score b - score a)
         (map (fun p => {| partner := p; score := calculateMatchScore p i |})
              candidates))
  = map Partner._id (sort_by (ranks_before i) candidates).
Proof.
  unfold Array_sort.
  rewrite (sort_by_map
             (fun p => {| partner := p; score := calculateMatchScore p i |})
             (ranks_before i)) by reflexivity.
  rewrite map_map. reflexivity.
Qed.

(** [findMatchingPartners] on a store that answers, for a literal city. *)
Lemma findMatchingPartners_online (st : Store) (i : Inquiry.t) (limit : nat) :
  online st = true ->
  literal_source (Inquiry.city (Inquiry.location i)) = true ->
  findMatchingPartners st i limit
  = Some (Returned
            (map Partner._id
               (sort_by (ranks_before i)
                  (cursor_limit limit
                     (sort_by sorts_before
                        (List.filter
                           (matches (matchCriteria i
                              (Literal_i (Inquiry.city (Inquiry.location i)))))
                           (Partners st))))))).
Proof.
  intros Hon Hlit. unfold findMatchingPartners, Partner_find_sort_limit.
  rewrite (new_RegExp_i_literal _ Hlit), Hon. cbn [await].
  now rewrite ranking_step.
Qed.

Lemma findMatchingPartners_offline (st : Store) (i : Inquiry.t) (limit : nat) :
  online st = false ->
  literal_source (Inquiry.city (Inquiry.location i)) = true ->
  findMatchingPartners st i limit = Some (Thrown DataAccessError).
Proof.
  intros Hoff Hlit. unfold findMatchingPartners, Partner_find_sort_limit.
  now rewrite (new_RegExp_i_literal _ Hlit), Hoff.
Qed.

Lemma cursor_limit_positive {A : Type} (n : nat) (l : list A) :
  (1 <= n)%nat -> cursor_limit n l = firstn n l.
Proof. destruct n; [lia | reflexivity]. Qed.

(** C2 as stated fails. With two eligible partners and the limit 1, the
    service returns the
    featured partner C, with score 65, and leaves out partner B, with score
    100: the limit is applied in the store's order, before any score is
    computed. Ranking all eligible partners first gives B. *)
Lemma findMatchingPartners_limits_before_scoring :
  let st := store_of [partner_B; partner_C] [] in
  let crit := matchCriteria inquiry_mumbai (Literal_i "Mumbai") in
  findMatchingPartners st inquiry_mumbai 1 = Some (Returned [Partner._id partner_C])
  /\ spec_rank_then_take st inquiry_mumbai (Literal_i "Mumbai") 1
     = [Partner._id partner_B]
  /\ matches crit partner_B = true
  /\ ~ calculateMatchScore partner_B inquiry_mumbai
       <= calculateMatchScore partner_C inquiry_mumbai.
Proof.
  cbv zeta. split; [vm_compute; reflexivity|].
  split; [vm_compute; reflexivity|].
  split; [vm_compute; reflexivity|].
  vm_compute. intros H. apply H. reflexivity.
Qed.

Lemma StronglySorted_weaken {A : Type} (R R' : A -> A -> Prop) (l : list A) :
  (forall a b, R a b -> R' a b) -> StronglySorted R l -> StronglySorted R' l.
Proof.
  intros HR. induction 1 as [|a l Hs IH Ha]; constructor.
  - exact IH.
  - eapply List.Forall_impl; [apply HR | exact Ha].
Qed.

(** C2, amended. For an inquiry with a literal city, a limit of at least
    1 and a store that answers, [findMatchingPartners] takes the eligible
    partners in the store's order (featured first, then by rating average,
    bookings and creation time, all descending, ties in natural order),
    keeps the first [limit] of them as candidates, and returns the ids of
    the candidates sorted by score descending, candidates of equal score
    staying in the store's order. So every returned partner scores at
    least as much as the partners returned after it. *)
Theorem findMatchingPartners_ranks_the_first_candidates
  (st : Store) (i : Inquiry.t) (limit : nat) :
  online st = true ->
  literal_source (Inquiry.city (Inquiry.location i)) = true ->
  (1 <= limit)%nat ->
  let eligible :=
    List.filter
      (matches (matchCriteria i (Literal_i (Inquiry.city (Inquiry.location i)))))
      (Partners st) in
  exists ordered ranked : list Partner.t,
    Permutation eligible ordered
    /\ StronglySorted (fun a b => sorts_before a b = true) ordered
    /\ (forall r, List.filter (same_keys r) ordered = List.filter (same_keys r) eligible)
    /\ findMatchingPartners st i limit = Some (Returned (map Partner._id ranked))
    /\ Permutation (firstn limit ordered) ranked
    /\ StronglySorted
         (fun a b => calculateMatchScore b i <= calculateMatchScore a i) ranked
    /\ (forall v, List.filter (has_score i v) ranked
                  = List.filter (has_score i v) (firstn limit ordered)).
Proof.
  intros Hon Hlit Hlimit eligible.
  exists (sort_by sorts_before eligible).
  exists (sort_by (ranks_before i) (firstn limit (sort_by sorts_before eligible))).
  split; [apply sort_by_Permutation|].
  split; [apply sort_by_sorts_before_sorted|].
  split; [intros r; apply sort_by_filter, same_keys_tied|].
  split.
  { rewrite (findMatchingPartners_online st i limit Hon Hlit).
    now rewrite (cursor_limit_positive limit _ Hlimit). }
  split; [apply sort_by_Permutation|].
  split; [|intros v; apply sort_by_filter, has_score_tied].
  eapply StronglySorted_weaken;
    [|apply (sort_by_sorted (ranks_before i));
      [apply ranks_before_total | apply ranks_before_trans]].
  intros a b. apply ranks_before_iff.
Qed.

Lemma findMatchingPartners_ranks_the_first_candidates_witness :
  let eligible :=
    List.filter (matches (matchCriteria inquiry_mumbai (Literal_i "Mumbai")))
                (Partners store0) in
  exists ordered ranked : list Partner.t,
    Permutation eligible ordered
    /\ StronglySorted (fun a b => sorts_before a b = true) ordered
    /\ (forall r, List.filter (same_keys r) ordered = List.filter (same_keys r) eligible)
    /\ findMatchingPartners store0 inquiry_mumbai 2
       = Some (Returned (map Partner._id ranked))
    /\ Permutation (firstn 2 ordered) ranked
    /\ StronglySorted
         (fun a b => calculateMatchScore b inquiry_mumbai
                     <= calculateMatchScore a inquiry_mumbai) ranked
    /\ (forall v, List.filter (has_score inquiry_mumbai v) ranked
                  = List.filter (has_score inquiry_mumbai v) (firstn 2 ordered)).
Proof.
  apply (findMatchingPartners_ranks_the_first_candidates store0 inquiry_mumbai 2).
  - reflexivity.
  - reflexivity.
  - lia.
Defined.

(** ** Bounds and failures of the search *)

Lemma Category_eqb_eq (a b : Category) : Category_eqb a b = true <-> a = b.
Proof. destruct a, b; cbn; split; congruence. Qed.

Lemma VerificationStatus_eqb_eq (a b : VerificationStatus) :
  VerificationStatus_eqb a b = true <-> a = b.
Proof. destruct a, b; cbn; split; congruence. Qed.

(** A partner that matches the filter is verified, lists the inquiry's
    category and passes the city test. *)
Lemma matches_inv (i : Inquiry.t) (re : RegExp) (p : Partner.t) :
  matches (matchCriteria i re) p = true ->
  Partner.verification_status p = verified
  /\ In (Inquiry.category i) (Partner.categories (Partner.businessInfo p))
  /\ RegExp_test re (Partner.city (Partner.location p)) = true.
Proof.
  unfold matches. cbn [matchCriteria crit_verification_status crit_isActive
                         crit_category crit_city crit_or].
  rewrite !andb_true_iff. intros [[[[Hv _] Hc] Hcity] _].
  split; [now apply VerificationStatus_eqb_eq|].
  split; [|exact Hcity].
  apply existsb_exists in Hc. destruct Hc as [c [Hin Hc]].
  apply Category_eqb_eq in Hc. now subst c.
Qed.

Lemma filter_none {A : Type} (f : A -> bool) (l : list A) :
  (forall x, In x l -> f x = false) -> List.filter f l = [].
Proof.
  induction l as [|x l IH]; intros H; [reflexivity|].
  cbn. rewrite (H x (or_introl eq_refl)). apply IH.
  intros y Hy. apply H. now right.
Qed.

(** For the store a limit of 0 is no limit: with the limit 0 the service
    returns all five eligible partners of the sample store. *)
Lemma findMatchingPartners_limit_0 :
  exists ids,
    findMatchingPartners store0 inquiry_mumbai 0 = Some (Returned ids)
    /\ ~ (length ids <= 0)%nat.
Proof.
  exists [1%N; 2%N; 3%N; 5%N; 4%N]. split; [vm_compute; reflexivity|].
  cbn. lia.
Qed.

(** On the literal cities the search behaves as one expects: for every
    limit of at least 1 it returns a list of at most [limit] ids whenever
    the store answers; when no partner is verified, lists the category and
    passes the city test, that list is empty, a normal result; and the
    call fails only when the store does not answer. *)
Theorem findMatchingPartners_at_most_limit
  (st : Store) (i : Inquiry.t) (limit : nat) :
  literal_source (Inquiry.city (Inquiry.location i)) = true ->
  (1 <= limit)%nat ->
  exists r,
    findMatchingPartners st i limit = Some r
    /\ (forall ids, r = Returned ids -> (length ids <= limit)%nat)
    /\ (online st = true -> exists ids, r = Returned ids)
    /\ (forall e, r = Thrown e -> e = DataAccessError /\ online st = false)
    /\ (online st = true ->
        (forall p, In p (Partners st) ->
           ~ (Partner.verification_status p = verified
              /\ In (Inquiry.category i) (Partner.categories (Partner.businessInfo p))
              /\ RegExp_test (Literal_i (Inquiry.city (Inquiry.location i)))
                             (Partner.city (Partner.location p)) = true)) ->
        r = Returned []).
Proof.
  intros Hlit Hlimit. destruct (online st) eqn:Hon.
  - eexists. split; [apply (findMatchingPartners_online st i limit Hon Hlit)|].
    split.
    { intros ids H. injection H as <-.
      rewrite length_map, sort_by_length, (cursor_limit_positive limit _ Hlimit).
      apply firstn_le_length. }
    split; [intros _; eexists; reflexivity|].
    split; [intros e H; discriminate|].
    intros _ Hnone. rewrite filter_none.
    { cbn [sort_by]. rewrite (cursor_limit_positive limit _ Hlimit), firstn_nil.
      reflexivity. }
    intros p Hp. destruct (matches _ p) eqn:E; [|reflexivity].
    exfalso. apply (Hnone p Hp). exact (matches_inv _ _ _ E).
  - eexists. split; [apply (findMatchingPartners_offline st i limit Hon Hlit)|].
    split; [intros ids H; discriminate|].
    split; [discriminate|].
    split; [|discriminate].
    intros e H. injection H as <-. split; reflexivity.
Qed.

Lemma findMatchingPartners_at_most_limit_witness :
  exists r,
    findMatchingPartners store0 inquiry_mumbai 3 = Some r
    /\ (forall ids, r = Returned ids -> (length ids <= 3)%nat)
    /\ (online store0 = true -> exists ids, r = Returned ids)
    /\ (forall e, r = Thrown e -> e = DataAccessError /\ online store0 = false)
    /\ (online store0 = true ->
        (forall p, In p (Partners store0) ->
           ~ (Partner.verification_status p = verified
              /\ In (Inquiry.category inquiry_mumbai)
                    (Partner.categories (Partner.businessInfo p))
              /\ RegExp_test
                   (Literal_i (Inquiry.city (Inquiry.location inquiry_mumbai)))
                   (Partner.city (Partner.location p)) = true)) ->
        r = Returned []).
Proof.
  apply (findMatchingPartners_at_most_limit store0 inquiry_mumbai 3).
  - reflexivity.
  - lia.
Defined.

(** A city whose only metacharacters are opening parentheses makes the
    search reject with the [SyntaxError] of the pattern constructor,
    whatever the store and the limit are. *)
Lemma findMatchingPartners_unterminated_group
  (st : Store) (i : Inquiry.t) (limit : nat) :
  unterminated_group (Inquiry.city (Inquiry.location i)) = true ->
  findMatchingPartners st i limit = Some (Thrown SyntaxError).
Proof.
  intros H. unfold findMatchingPartners, new_RegExp_i.
  assert (Hlit : literal_source (Inquiry.city (Inquiry.location i)) = false).
  { unfold unterminated_group in H. apply andb_true_iff in H.
    destruct H as [_ H]. now apply negb_true_iff in H. }
  now rewrite Hlit, H.
Qed.

(** C7, at a failing input. The city "Mumbai (" has between 2 and 50
    characters, as the request validation asks, and is not a pattern: on
    the sample store, which answers and has eligible partners for Mumbai,
    the search with the limit 5 throws a [SyntaxError], which is not a
    data-access failure, where the claim has it return a list. *)
Theorem findMatchingPartners_throws_SyntaxError :
  online store0 = true
  /\ Inquiry.city (Inquiry.location inquiry_open_paren) = "Mumbai ("%string
  /\ findMatchingPartners store0 inquiry_open_paren 5 = Some (Thrown SyntaxError)
  /\ findMatchingPartners store0 inquiry_open_paren 5
     <> Some (Thrown DataAccessError)
  /\ forall ids,
       findMatchingPartners store0 inquiry_open_paren 5 <> Some (Returned ids).
Proof.
  assert (H : findMatchingPartners store0 inquiry_open_paren 5
              = Some (Thrown SyntaxError))
    by (apply findMatchingPartners_unterminated_group; reflexivity).
  rewrite H. repeat split; discriminate.
Qed.

(** * Further properties of the matching service *)

(** ** Range of the score *)

(** X1. With a rating average of at most 5, the bound of the schema, the
    score is at most 120: 10 + 20 + 25 + 20 + 15 + 15 + 10 + 5. *)
Theorem calculateMatchScore_at_most_120 (p : Partner.t) (i : Inquiry.t) :
  Partner.average (Partner.rating p) <= 5 ->
  calculateMatchScore p i <= 120.
Proof.
  intros Hr. unfold calculateMatchScore.
  pose proof (Math_min_le_r (Partner.experience (Partner.businessInfo p) * 2) 20) as Hexp.
  pose proof (Math_min_le_r (Partner.totalBookings p) 10) as Hbook.
  destruct (Partner.isFeatured p);
    destruct (Qlt_bool 0 (Partner.average (Partner.rating p)));
    destruct (String.eqb _ _);
    destruct (Inquiry.budget i) as [b|];
    try destruct (Qle_bool _ (max b) && _)%bool;
    try destruct (Qge_bool _ (min b) && _)%bool;
    destruct (Qlt_bool 0 (Partner.totalBookings p));
    destruct (_ <=? 3)%nat;
    lra.
Qed.

Lemma calculateMatchScore_at_most_120_witness :
  calculateMatchScore partner_B inquiry_mumbai <= 120.
Proof.
  apply (calculateMatchScore_at_most_120 partner_B inquiry_mumbai).
  vm_compute. discriminate.
Defined.

(** X2. The budget never lowers the score: an inquiry without a budget
    gives every partner a score that is at most the score the same partner
    gets from an inquiry in the same city with a budget. *)
Theorem calculateMatchScore_budget_never_lowers (p : Partner.t) (i0 i : Inquiry.t) :
  Inquiry.budget i0 = None ->
  Inquiry.city (Inquiry.location i0) = Inquiry.city (Inquiry.location i) ->
  calculateMatchScore p i0 <= calculateMatchScore p i.
Proof.
  intros Hnone Hcity. unfold calculateMatchScore. rewrite Hnone, Hcity.
  destruct (Partner.isFeatured p);
    destruct (Qlt_bool 0 (Partner.average (Partner.rating p)));
    destruct (String.eqb _ _);
    destruct (Inquiry.budget i) as [b|];
    try destruct (Qle_bool _ (max b) && _)%bool;
    try destruct (Qge_bool _ (min b) && _)%bool;
    destruct (Qlt_bool 0 (Partner.totalBookings p));
    destruct (_ <=? 3)%nat;
    lra.
Qed.

Lemma calculateMatchScore_budget_never_lowers_witness :
  calculateMatchScore partner_A inquiry_no_budget
    <= calculateMatchScore partner_A inquiry_mumbai.
Proof.
  apply (calculateMatchScore_budget_never_lowers partner_A inquiry_no_budget
           inquiry_mumbai); reflexivity.
Defined.

(** ** What the search returns *)

Lemma matches_isActive (i : Inquiry.t) (re : RegExp) (p : Partner.t) :
  matches (matchCriteria i re) p = true -> Partner.isActive p = true.
Proof.
  unfold matches. cbn [matchCriteria crit_isActive].
  rewrite !andb_true_iff. intros [[[[_ Ha] _] _] _].
  now apply Bool.eqb_prop in Ha.
Qed.

Lemma In_firstn {A : Type} (n : nat) (l : list A) (x : A) :
  In x (firstn n l) -> In x l.
Proof.
  intros H. rewrite <- (firstn_skipn n l). apply in_or_app. now left.
Qed.

Lemma In_cursor_limit {A : Type} (n : nat) (l : list A) (x : A) :
  In x (cursor_limit n l) -> In x l.
Proof. destruct n; [trivial | apply In_firstn]. Qed.

Lemma NoDup_map_filter {A B : Type} (f : A -> B) (g : A -> bool) (l : list A) :
  List.NoDup (map f l) -> List.NoDup (map f (List.filter g l)).
Proof.
  induction l as [|x l IH]; cbn; intros H; [constructor|].
  apply List.NoDup_cons_iff in H. destruct H as [Hx Hl].
  destruct (g x); [|now apply IH]. cbn. constructor; [|now apply IH].
  intros Hin. apply Hx. apply in_map_iff in Hin. destruct Hin as [y [Hy Hin]].
  apply in_map_iff. exists y. split; [exact Hy|].
  apply filter_In in Hin. tauto.
Qed.

Lemma NoDup_map_cursor_limit {A B : Type} (f : A -> B) (n : nat) (l : list A) :
  List.NoDup (map f l) -> List.NoDup (map f (cursor_limit n l)).
Proof.
  destruct n; [trivial|]. cbn [cursor_limit]. intros H.
  rewrite <- (firstn_skipn (S n) l), map_app in H.
  now apply List.NoDup_app_remove_r in H.
Qed.

(** The partners a search on a store that answers ranks: the first
    [limit] eligible partners in the store's order. *)
Lemma findMatchingPartners_online_eligible (st : Store) (i : Inquiry.t) (limit : nat) :
  online st = true ->
  literal_source (Inquiry.city (Inquiry.location i)) = true ->
  findMatchingPartners st i limit
  = Some (Returned
            (map Partner._id
               (sort_by (ranks_before i)
                  (cursor_limit limit
                     (sort_by sorts_before (eligible_partners st i)))))).
Proof. apply findMatchingPartners_online. Qed.

(** X3. Every id the search returns is the id of a partner of the store
    that is verified, active, lists the inquiry's category and passes the
    city test; this holds for every limit. *)
Theorem findMatchingPartners_returns_eligible
  (st : Store) (i : Inquiry.t) (limit : nat) :
  online st = true ->
  literal_source (Inquiry.city (Inquiry.location i)) = true ->
  exists ids,
    findMatchingPartners st i limit = Some (Returned ids)
    /\ forall id, In id ids ->
         exists p,
           In p (Partners st) /\ Partner._id p = id
           /\ Partner.verification_status p = verified
           /\ Partner.isActive p = true
           /\ In (Inquiry.category i) (Partner.categories (Partner.businessInfo p))
           /\ RegExp_test (Literal_i (Inquiry.city (Inquiry.location i)))
                          (Partner.city (Partner.location p)) = true.
Proof.
  intros Hon Hlit. eexists.
  split; [apply (findMatchingPartners_online_eligible st i limit Hon Hlit)|].
  intros id Hid. apply in_map_iff in Hid. destruct Hid as [p [Hp Hin]].
  exists p.
  eapply Permutation_in in Hin;
    [|apply Permutation_sym, sort_by_Permutation].
  apply In_cursor_limit in Hin.
  eapply Permutation_in in Hin;
    [|apply Permutation_sym, sort_by_Permutation].
  apply filter_In in Hin. destruct Hin as [Hin Hm].
  destruct (matches_inv _ _ _ Hm) as [Hv [Hc Hcity]].
  pose proof (matches_isActive _ _ _ Hm) as Ha.
  repeat split; assumption.
Qed.

Lemma findMatchingPartners_returns_eligible_witness :
  exists ids,
    findMatchingPartners store0 inquiry_mumbai 2 = Some (Returned ids)
    /\ forall id, In id ids ->
         exists p,
           In p (Partners store0) /\ Partner._id p = id
           /\ Partner.verification_status p = verified
           /\ Partner.isActive p = true
           /\ In (Inquiry.category inquiry_mumbai)
                 (Partner.categories (Partner.businessInfo p))
           /\ RegExp_test
                (Literal_i (Inquiry.city (Inquiry.location inquiry_mumbai)))
                (Partner.city (Partner.location p)) = true.
Proof.
  apply (findMatchingPartners_returns_eligible store0 inquiry_mumbai 2);
    reflexivity.
Defined.

(** X4. For a limit of at least 1 the search returns exactly as many ids
    as the smaller of the limit and the number of eligible partners: fewer
    than [limit] only when there are fewer eligible partners, and no
    padding. *)
Theorem findMatchingPartners_count (st : Store) (i : Inquiry.t) (limit : nat) :
  online st = true ->
  literal_source (Inquiry.city (Inquiry.location i)) = true ->
  (1 <= limit)%nat ->
  exists ids,
    findMatchingPartners st i limit = Some (Returned ids)
    /\ length ids = Nat.min limit (length (eligible_partners st i)).
Proof.
  intros Hon Hlit Hlimit. eexists.
  split; [apply (findMatchingPartners_online_eligible st i limit Hon Hlit)|].
  rewrite length_map, sort_by_length, (cursor_limit_positive limit _ Hlimit).
  rewrite length_firstn, sort_by_length. reflexivity.
Qed.

Lemma findMatchingPartners_count_witness :
  exists ids,
    findMatchingPartners store0 inquiry_mumbai 7 = Some (Returned ids)
    /\ length ids = Nat.min 7 (length (eligible_partners store0 inquiry_mumbai)).
Proof.
  apply (findMatchingPartners_count store0 inquiry_mumbai 7);
    [reflexivity | reflexivity | lia].
Defined.

(** X5. If no two partners of the store share an id, no id is returned
    twice. *)
Theorem findMatchingPartners_NoDup (st : Store) (i : Inquiry.t) (limit : nat) :
  online st = true ->
  literal_source (Inquiry.city (Inquiry.location i)) = true ->
  List.NoDup (map Partner._id (Partners st)) ->
  exists ids,
    findMatchingPartners st i limit = Some (Returned ids) /\ List.NoDup ids.
Proof.
  intros Hon Hlit Hnd. eexists.
  split; [apply (findMatchingPartners_online_eligible st i limit Hon Hlit)|].
  eapply Permutation_NoDup;
    [apply Permutation_map, sort_by_Permutation|].
  apply NoDup_map_cursor_limit.
  eapply Permutation_NoDup;
    [apply Permutation_map, sort_by_Permutation|].
  apply NoDup_map_filter, Hnd.
Qed.

Lemma findMatchingPartners_NoDup_witness :
  exists ids,
    findMatchingPartners store0 inquiry_mumbai 3 = Some (Returned ids)
    /\ List.NoDup ids.
Proof.
  apply (findMatchingPartners_NoDup store0 inquiry_mumbai 3);
    [reflexivity | reflexivity |].
  cbn. repeat constructor; cbn; intuition discriminate.
Defined.

(** X6. When the limit is at least 1 and at least the number of eligible
    partners, nothing is cut: the ids returned are the ids of all eligible
    partners, each once per eligible partner, in some order. *)
Theorem findMatchingPartners_all_eligible (st : Store) (i : Inquiry.t) (limit : nat) :
  online st = true ->
  literal_source (Inquiry.city (Inquiry.location i)) = true ->
  (1 <= limit)%nat ->
  (length (eligible_partners st i) <= limit)%nat ->
  exists ids,
    findMatchingPartners st i limit = Some (Returned ids)
    /\ Permutation (map Partner._id (eligible_partners st i)) ids.
Proof.
  intros Hon Hlit Hlimit Hlen. eexists.
  split; [apply (findMatchingPartners_online_eligible st i limit Hon Hlit)|].
  apply Permutation_map.
  rewrite (cursor_limit_positive limit _ Hlimit).
  rewrite firstn_all2 by (rewrite sort_by_length; exact Hlen).
  etransitivity; apply sort_by_Permutation.
Qed.

Lemma findMatchingPartners_all_eligible_witness :
  exists ids,
    findMatchingPartners store0 inquiry_mumbai 5 = Some (Returned ids)
    /\ Permutation (map Partner._id (eligible_partners store0 inquiry_mumbai)) ids.
Proof.
  apply (findMatchingPartners_all_eligible store0 inquiry_mumbai 5);
    [reflexivity | reflexivity | lia | vm_compute; lia].
Defined.

(** ** More on distribution *)

(** X7. Distributing an inquiry a second time overwrites the first
    distribution: the store after the two calls is the store the second
    call alone would have produced. *)
Theorem distributeInquiry_twice
  (st : Store) (clock1 clock2 : nat -> Date) (id : ObjectId)
  (ids1 ids2 : list ObjectId) (d : Inquiry.t) :
  online st = true ->
  Inquiries st !! id = Some d ->
  fst (distributeInquiry (fst (distributeInquiry st clock1 id ids1)) clock2 id ids2)
  = fst (distributeInquiry st clock2 id ids2).
Proof.
  intros Hon Hd.
  rewrite (distributeInquiry_found st clock1 id ids1 d Hon Hd). cbn [fst].
  rewrite (distributeInquiry_found st clock2 id ids2 d Hon Hd). cbn [fst].
  erewrite distributeInquiry_found;
    [|exact Hon | cbn [Inquiries]; apply lookup_insert_eq].
  cbn [fst online Partners Inquiries]. f_equal.
  apply insert_insert_eq.
Qed.

Lemma distributeInquiry_twice_witness :
  fst (distributeInquiry (fst (distributeInquiry store0 clock0 7 [1%N; 2%N]))
         clock0 7 [3%N])
  = fst (distributeInquiry store0 clock0 7 [3%N]).
Proof.
  apply (distributeInquiry_twice store0 clock0 clock0 7 [1%N; 2%N] [3%N]
           inquiry_mumbai).
  - reflexivity.
  - vm_compute. reflexivity.
Defined.

(** X8. [distributeInquiry] neither creates nor deletes an inquiry: the
    ids of the inquiry collection are the same after the call, whether the
    id it is given exists or not. *)
Theorem distributeInquiry_same_ids
  (st : Store) (clock : nat -> Date) (id : ObjectId) (ids : list ObjectId) :
  dom (Inquiries (fst (distributeInquiry st clock id ids))) = dom (Inquiries st).
Proof.
  destruct (online st) eqn:Hon.
  - destruct (Inquiries st !! id) as [d|] eqn:Hd.
    + rewrite (distributeInquiry_found _ _ _ _ _ Hon Hd). cbn [fst Inquiries].
      rewrite dom_insert_L.
      apply subseteq_union_1_L, singleton_subseteq_l, elem_of_dom. eauto.
    + now rewrite (distributeInquiry_missing _ _ _ _ Hon Hd).
  - now rewrite (distributeInquiry_offline _ _ _ _ Hon).
Qed.



(** * The inquiry controller *)







(** * The lead handlers *)

Lemma Inquiry_findOneAndUpdate_hit st id cond update d :
  online st = true -> Inquiries st !! id = Some d -> cond d = true ->
  Inquiry_findOneAndUpdate st id cond update
  = ({| online := online st; Partners := Partners st;
        Inquiries := <[id := update d]> (Inquiries st) |},
     Returned (Some (update d))).
Proof.
  intros Hon Hd Hc. unfold Inquiry_findOneAndUpdate. now rewrite Hon, Hd, Hc.
Qed.

Lemma Inquiry_findOneAndUpdate_miss st id cond update :
  online st = true ->
  (forall d, Inquiries st !! id = Some d -> cond d = false) ->
  Inquiry_findOneAndUpdate st id cond update = (st, Returned None).
Proof.
  intros Hon H. unfold Inquiry_findOneAndUpdate. rewrite Hon.
  destruct (Inquiries st !! id) as [d|]; [|reflexivity].
  now rewrite (H d eq_refl).
Qed.

Lemma update_first_assigned_partnerId pid f l :
  (forall a, Inquiry.partnerId (f a) = Inquiry.partnerId a) ->
  map Inquiry.partnerId (update_first_assigned pid f l) = map Inquiry.partnerId l.
Proof.
  intros Hf. induction l as [|a l IH]; [reflexivity|].
  cbn [update_first_assigned]. destruct (N.eqb _ pid); cbn [map].
  - now rewrite Hf.
  - now rewrite IH.
Qed.

Lemma update_first_assigned_others pid f l a :
  (forall b, Inquiry.partnerId (f b) = Inquiry.partnerId b) ->
  In a (update_first_assigned pid f l) -> Inquiry.partnerId a <> pid -> In a l.
Proof.
  intros Hf. induction l as [|b l IH]; [trivial|]. cbn [update_first_assigned].
  destruct (N.eqb (Inquiry.partnerId b) pid) eqn:E; cbn [In].
  - intros [<- | H] Hne; [|now right].
    apply N.eqb_eq in E. rewrite Hf in Hne. contradiction.
  - intros [<- | H] Hne; [now left | right; now apply IH].
Qed.

Lemma update_first_assigned_hit pid f l :
  existsb (fun a => N.eqb (Inquiry.partnerId a) pid) l = true ->
  exists a, In a l /\ Inquiry.partnerId a = pid
            /\ In (f a) (update_first_assigned pid f l).
Proof.
  induction l as [|b l IH]; [discriminate|].
  cbn [existsb update_first_assigned].
  destruct (N.eqb (Inquiry.partnerId b) pid) eqn:E.
  - intros _. exists b. apply N.eqb_eq in E. cbn [In]. auto.
  - cbn [orb]. intros H. destruct (IH H) as [a [Ha [Hp Hin]]].
    exists a. cbn [In]. auto.
Qed.

Lemma Partner_findOne_userId_online st userId :
  online st = true ->
  Partner_findOne_userId st userId
  = Returned (List.find (fun p => N.eqb (Partner.userId p) userId) (Partners st)).
Proof. intros Hon. unfold Partner_findOne_userId. now rewrite Hon. Qed.

(** The store and the reply of [respondToLead] for a partner the lead is
    assigned to. *)
Lemma respondToLead_hit st clock userId leadId message quotation p d :
  online st = true ->
  List.find (fun p => N.eqb (Partner.userId p) userId) (Partners st) = Some p ->
  Inquiries st !! leadId = Some d ->
  is_assigned (Partner._id p) d = true ->
  respondToLead st clock userId leadId message quotation
  = ({| online := online st; Partners := Partners st;
        Inquiries :=
          <[leadId := set_response (Partner._id p) message quotation
                        (clock 0%nat) (clock 1%nat) d]> (Inquiries st) |},
     {| http_status := 200; reply_success := true;
        reply_message := "Response submitted successfully" |}).
Proof.
  intros Hon Hp Hd Ha. unfold respondToLead.
  rewrite (Partner_findOne_userId_online st userId Hon), Hp.
  now rewrite (Inquiry_findOneAndUpdate_hit st leadId _ _ d Hon Hd Ha).
Qed.

(** X12. A partner who is among those an inquiry is assigned to can
    respond to it, whatever the status of the inquiry is, cancelled or
    booked included: the answer is 200, the status becomes responded, the
    assignment list keeps its partners and their order, an entry of the
    responding partner carries the message, the quotation and the response
    time, and the entries of the other partners are as they were. No
    partner document changes. *)
Theorem respondToLead_records_response
  (st : Store) (clock : nat -> Date) (userId leadId : ObjectId)
  (message : option string) (quotation : option Q)
  (p : Partner.t) (d : Inquiry.t) :
  online st = true ->
  List.find (fun p => N.eqb (Partner.userId p) userId) (Partners st) = Some p ->
  Inquiries st !! leadId = Some d ->
  is_assigned (Partner._id p) d = true ->
  let '(st', reply) := respondToLead st clock userId leadId message quotation in
  http_status reply = 200%nat
  /\ Partners st' = Partners st
  /\ exists d',
       Inquiries st' !! leadId = Some d'
       /\ Inquiry.status d' = responded
       /\ map Inquiry.partnerId (Inquiry.assignedPartners d')
          = map Inquiry.partnerId (Inquiry.assignedPartners d)
       /\ (exists a, In a (Inquiry.assignedPartners d')
                     /\ Inquiry.partnerId a = Partner._id p
                     /\ Inquiry.response a
                        = Some {| Inquiry.message := message;
                                  Inquiry.quotation := quotation;
                                  Inquiry.respondedAt := Some (clock 0%nat);
                                  Inquiry.isAccepted := false |})
       /\ (forall a, In a (Inquiry.assignedPartners d') ->
             Inquiry.partnerId a <> Partner._id p ->
             In a (Inquiry.assignedPartners d)).
Proof.
  intros Hon Hp Hd Ha.
  rewrite (respondToLead_hit st clock userId leadId message quotation p d Hon Hp Hd Ha).
  split; [reflexivity|]. split; [reflexivity|].
  eexists. cbn [Inquiries]. split; [apply lookup_insert_eq|].
  unfold set_response.
  cbn [with_assignments_status Inquiry.status Inquiry.assignedPartners].
  split; [reflexivity|].
  split; [now apply update_first_assigned_partnerId|].
  split.
  - destruct (update_first_assigned_hit (Partner._id p)
                (fun a =>
                   {| Inquiry.partnerId := Inquiry.partnerId a;
                      Inquiry.assignedAt := Inquiry.assignedAt a;
                      Inquiry.response :=
                        Some {| Inquiry.message := message;
                                Inquiry.quotation := quotation;
                                Inquiry.respondedAt := Some (clock 0%nat);
                                Inquiry.isAccepted := false |} |})
                (Inquiry.assignedPartners d) Ha) as [a [_ [Hid Hin]]].
    eexists. split; [exact Hin|]. split; [exact Hid | reflexivity].
  - intros a. now apply update_first_assigned_others.
Qed.

(** Partner 9 answers inquiry 8 of a store that has its profile. *)
Lemma respondToLead_records_response_witness :
  let st := store_of [mk_partner 9 [portrait] 2 {| min := 1; max := 2 |} "Pune"
                        verified 3 true false 0 10]
                     [(8%N, inquiry_assigned)] in
  let '(st', reply) := respondToLead st clock0 109 8 (Some "Hello"%string) (Some 5) in
  http_status reply = 200%nat
  /\ Partners st' = Partners st
  /\ exists d',
       Inquiries st' !! 8%N = Some d'
       /\ Inquiry.status d' = responded
       /\ map Inquiry.partnerId (Inquiry.assignedPartners d')
          = map Inquiry.partnerId (Inquiry.assignedPartners inquiry_assigned)
       /\ (exists a, In a (Inquiry.assignedPartners d')
                     /\ Inquiry.partnerId a = 9%N
                     /\ Inquiry.response a
                        = Some {| Inquiry.message := Some "Hello"%string;
                                  Inquiry.quotation := Some 5;
                                  Inquiry.respondedAt := Some (clock0 0%nat);
                                  Inquiry.isAccepted := false |})
       /\ (forall a, In a (Inquiry.assignedPartners d') ->
             Inquiry.partnerId a <> 9%N ->
             In a (Inquiry.assignedPartners inquiry_assigned)).
Proof.
  intros st.
  apply (respondToLead_records_response st clock0 109 8 (Some "Hello"%string) (Some 5)
           (mk_partner 9 [portrait] 2 {| min := 1; max := 2 |} "Pune"
                       verified 3 true false 0 10)
           inquiry_assigned).
  - reflexivity.
  - reflexivity.
  - vm_compute. reflexivity.
  - reflexivity.
Defined.

(** X13. A request to respond is refused with 404, and changes nothing,
    when the user has no partner profile, when no inquiry has the id, or
    when the inquiry is not assigned to the user's partner. *)
Theorem respondToLead_refused
  (st : Store) (clock : nat -> Date) (userId leadId : ObjectId)
  (message : option string) (quotation : option Q) :
  online st = true ->
  (forall p d,
     List.find (fun p => N.eqb (Partner.userId p) userId) (Partners st) = Some p ->
     Inquiries st !! leadId = Some d ->
     is_assigned (Partner._id p) d = false) ->
  fst (respondToLead st clock userId leadId message quotation) = st
  /\ http_status (snd (respondToLead st clock userId leadId message quotation))
     = 404%nat.
Proof.
  intros Hon Hno. unfold respondToLead.
  rewrite (Partner_findOne_userId_online st userId Hon).
  destruct (List.find _ (Partners st)) as [p|] eqn:Hp; [|split; reflexivity].
  rewrite Inquiry_findOneAndUpdate_miss; [split; reflexivity | exact Hon |].
  intros d Hd. now apply (Hno p d).
Qed.

(** Partner A, whose user is 101, is not assigned to inquiry 8. *)
Lemma respondToLead_refused_witness :
  fst (respondToLead store0 clock0 101 8 None None) = store0
  /\ http_status (snd (respondToLead store0 clock0 101 8 None None)) = 404%nat.
Proof.
  apply (respondToLead_refused store0 clock0 101 8 None None).
  - reflexivity.
  - intros p d Hp Hd. vm_compute in Hp. injection Hp as <-.
    vm_compute in Hd. injection Hd as <-. reflexivity.
Defined.

(** X14. Distribution and response compose: once an inquiry is
    distributed to a list of partners, any partner of the list can respond
    to it, and afterwards the inquiry is responded, still assigned to the
    same partners in the same order, an entry of that partner carries the
    message, the quotation and the response time, and the entries of the
    other partners carry the default response, without message, quotation
    or response time. *)
Theorem respondToLead_after_distributeInquiry
  (st : Store) (clock clock' : nat -> Date) (userId id : ObjectId)
  (ids : list ObjectId) (message : option string) (quotation : option Q)
  (p : Partner.t) (d : Inquiry.t) :
  online st = true ->
  Inquiries st !! id = Some d ->
  List.find (fun p => N.eqb (Partner.userId p) userId) (Partners st) = Some p ->
  In (Partner._id p) ids ->
  let st1 := fst (distributeInquiry st clock id ids) in
  let '(st2, reply) := respondToLead st1 clock' userId id message quotation in
  http_status reply = 200%nat
  /\ exists d2,
       Inquiries st2 !! id = Some d2
       /\ Inquiry.status d2 = responded
       /\ map Inquiry.partnerId (Inquiry.assignedPartners d2) = ids
       /\ (exists a, In a (Inquiry.assignedPartners d2)
                     /\ Inquiry.partnerId a = Partner._id p
                     /\ Inquiry.response a
                        = Some {| Inquiry.message := message;
                                  Inquiry.quotation := quotation;
                                  Inquiry.respondedAt := Some (clock' 0%nat);
                                  Inquiry.isAccepted := false |})
       /\ (forall a, In a (Inquiry.assignedPartners d2) ->
             Inquiry.partnerId a <> Partner._id p ->
             Inquiry.response a = Some default_response).
Proof.
  intros Hon Hd Hp Hin st1. subst st1.
  rewrite (distributeInquiry_found st clock id ids d Hon Hd). cbn [fst].
  set (d1 := set_assignedPartners_status _ _ _ d).
  assert (Ha : is_assigned (Partner._id p) d1 = true).
  { unfold is_assigned. apply existsb_exists.
    subst d1. cbn [set_assignedPartners_status Inquiry.assignedPartners].
    rewrite <- (stored_assignments_partnerId clock ids 0) in Hin.
    apply in_map_iff in Hin. destruct Hin as [a [Hid Ha]].
    exists a. split; [exact Ha | now apply N.eqb_eq]. }
  erewrite respondToLead_hit;
    [| exact Hon | exact Hp | cbn [Inquiries]; apply lookup_insert_eq | exact Ha].
  split; [reflexivity|].
  eexists. cbn [Inquiries]. split; [apply lookup_insert_eq|].
  unfold set_response.
  cbn [with_assignments_status Inquiry.status Inquiry.assignedPartners].
  split; [reflexivity|].
  split.
  { rewrite update_first_assigned_partnerId by reflexivity.
    subst d1. cbn [set_assignedPartners_status Inquiry.assignedPartners].
    apply stored_assignments_partnerId. }
  split.
  { destruct (update_first_assigned_hit (Partner._id p)
                (fun a =>
                   {| Inquiry.partnerId := Inquiry.partnerId a;
                      Inquiry.assignedAt := Inquiry.assignedAt a;
                      Inquiry.response :=
                        Some {| Inquiry.message := message;
                                Inquiry.quotation := quotation;
                                Inquiry.respondedAt := Some (clock' 0%nat);
                                Inquiry.isAccepted := false |} |})
                (Inquiry.assignedPartners d1) Ha) as [a [_ [Hid Hina]]].
    eexists. split; [exact Hina|]. split; [exact Hid | reflexivity]. }
  intros a Ha' Hne.
  apply update_first_assigned_others in Ha'; [|reflexivity | exact Hne].
  subst d1. cbn [set_assignedPartners_status Inquiry.assignedPartners] in Ha'.
  pose proof (stored_assignments_default clock ids 0) as Hdef.
  rewrite List.Forall_forall in Hdef. now apply Hdef.
Qed.

(** Inquiry 7 goes to partners 2 and 1; partner A, of user 101, answers. *)
Lemma respondToLead_after_distributeInquiry_witness :
  let st1 := fst (distributeInquiry store0 clock0 7 [2%N; 1%N]) in
  let '(st2, reply) := respondToLead st1 clock0 101 7 None (Some 40000) in
  http_status reply = 200%nat
  /\ exists d2,
       Inquiries st2 !! 7%N = Some d2
       /\ Inquiry.status d2 = responded
       /\ map Inquiry.partnerId (Inquiry.assignedPartners d2) = [2%N; 1%N]
       /\ (exists a, In a (Inquiry.assignedPartners d2)
                     /\ Inquiry.partnerId a = Partner._id partner_A
                     /\ Inquiry.response a
                        = Some {| Inquiry.message := None;
                                  Inquiry.quotation := Some 40000;
                                  Inquiry.respondedAt := Some (clock0 0%nat);
                                  Inquiry.isAccepted := false |})
       /\ (forall a, In a (Inquiry.assignedPartners d2) ->
             Inquiry.partnerId a <> Partner._id partner_A ->
             Inquiry.response a = Some default_response).
Proof.
  apply (respondToLead_after_distributeInquiry store0 clock0 clock0 101 7
           [2%N; 1%N] None (Some 40000) partner_A inquiry_mumbai).
  - reflexivity.
  - vm_compute. reflexivity.
  - reflexivity.
  - cbn. auto.
Defined.

(** ** Cancelling *)

(** X15. An inquiry that is booked, closed or already cancelled cannot be
    cancelled, and nobody but its client can cancel an inquiry: the answer
    is 404 and nothing changes. *)
Theorem cancelInquiry_refused
  (st : Store) (clock : nat -> Date) (clientId inquiryId : ObjectId) (d : Inquiry.t) :
  online st = true ->
  Inquiries st !! inquiryId = Some d ->
  Inquiry.clientId d <> clientId
  \/ Inquiry.status d = booked
  \/ Inquiry.status d = closed
  \/ Inquiry.status d = cancelled ->
  fst (cancelInquiry st clock clientId inquiryId) = st
  /\ http_status (snd (cancelInquiry st clock clientId inquiryId)) = 404%nat.
Proof.
  intros Hon Hd Hwhy. unfold cancelInquiry.
  rewrite Inquiry_findOneAndUpdate_miss; [split; reflexivity | exact Hon |].
  intros d0 Hd0. rewrite Hd in Hd0. injection Hd0 as <-.
  apply andb_false_iff.
  destruct Hwhy as [Hc | [Hs | [Hs | Hs]]];
    [left; now apply N.eqb_neq | right; now rewrite Hs ..].
Qed.

(** Inquiry 9 of this store is booked. *)
Lemma cancelInquiry_refused_witness :
  let st := store_of [] [(9%N, inquiry_other)] in
  fst (cancelInquiry st clock0 777 9) = st
  /\ http_status (snd (cancelInquiry st clock0 777 9)) = 404%nat.
Proof.
  intros st.
  apply (cancelInquiry_refused st clock0 777 9 inquiry_other).
  - reflexivity.
  - vm_compute. reflexivity.
  - right. left. reflexivity.
Defined.

(** X16. The client of an inquiry that is new, assigned or responded can
    cancel it: the answer is 200 and the inquiry is cancelled, with its
    assignment list and selected partner as before. A request to cancel
    that comes right after, by anybody, is refused with 404 and changes
    nothing. *)
Theorem cancelInquiry_cancels_once
  (st : Store) (clock clock' : nat -> Date) (clientId anyone inquiryId : ObjectId)
  (d : Inquiry.t) :
  online st = true ->
  Inquiries st !! inquiryId = Some d ->
  Inquiry.clientId d = clientId ->
  cancellable (Inquiry.status d) = true ->
  let '(st1, reply1) := cancelInquiry st clock clientId inquiryId in
  http_status reply1 = 200%nat
  /\ (exists d1,
        Inquiries st1 !! inquiryId = Some d1
        /\ Inquiry.status d1 = cancelled
        /\ Inquiry.assignedPartners d1 = Inquiry.assignedPartners d
        /\ Inquiry.selectedPartner d1 = Inquiry.selectedPartner d)
  /\ fst (cancelInquiry st1 clock' anyone inquiryId) = st1
  /\ http_status (snd (cancelInquiry st1 clock' anyone inquiryId)) = 404%nat.
Proof.
  intros Hon Hd Hc Hs. unfold cancelInquiry at 1.
  rewrite (Inquiry_findOneAndUpdate_hit st inquiryId _ _ d Hon Hd)
    by (rewrite Hc, N.eqb_refl, Hs; reflexivity).
  split; [reflexivity|].
  split.
  { eexists. cbn [Inquiries]. split; [apply lookup_insert_eq|]. repeat split. }
  unfold cancelInquiry.
  rewrite Inquiry_findOneAndUpdate_miss; [split; reflexivity | exact Hon |].
  cbn [Inquiries]. intros d0. rewrite lookup_insert_eq. intros H.
  injection H as <-. cbn [with_assignments_status Inquiry.status cancellable].
  apply andb_false_r.
Qed.

Lemma cancelInquiry_cancels_once_witness :
  let '(st1, reply1) := cancelInquiry store0 clock0 500 7 in
  http_status reply1 = 200%nat
  /\ (exists d1,
        Inquiries st1 !! 7%N = Some d1
        /\ Inquiry.status d1 = cancelled
        /\ Inquiry.assignedPartners d1 = Inquiry.assignedPartners inquiry_mumbai
        /\ Inquiry.selectedPartner d1 = Inquiry.selectedPartner inquiry_mumbai)
  /\ fst (cancelInquiry st1 clock0 500 7) = st1
  /\ http_status (snd (cancelInquiry st1 clock0 500 7)) = 404%nat.
Proof.
  apply (cancelInquiry_cancels_once store0 clock0 clock0 500 500 7 inquiry_mumbai).
  - reflexivity.
  - vm_compute. reflexivity.
  - reflexivity.
  - reflexivity.
Defined.

(** The store and the reply of a cancel request that goes through. *)
Lemma cancelInquiry_hit st clock clientId inquiryId d :
  online st = true ->
  Inquiries st !! inquiryId = Some d ->
  Inquiry.clientId d = clientId ->
  cancellable (Inquiry.status d) = true ->
  cancelInquiry st clock clientId inquiryId
  = ({| online := online st; Partners := Partners st;
        Inquiries :=
          <[inquiryId := with_assignments_status (Inquiry.assignedPartners d)
                           cancelled (Inquiry.selectedPartner d)
                           (clock 1%nat) d]> (Inquiries st) |},
     {| http_status := 200; reply_success := true;
        reply_message := "Inquiry cancelled successfully" |}).
Proof.
  intros Hon Hd Hc Hs. unfold cancelInquiry.
  now rewrite (Inquiry_findOneAndUpdate_hit st inquiryId _ _ d Hon Hd)
    by (rewrite Hc, N.eqb_refl, Hs; reflexivity).
Qed.

(** X25. A cancelled inquiry does not stay cancelled: a partner it is
    assigned to can still respond to it, which makes it responded again,
    and its client can then cancel it once more. The three requests are
    answered 200 each. *)
Theorem cancelInquiry_respondToLead_cancelInquiry
  (st : Store) (clock1 clock2 clock3 : nat -> Date)
  (clientId userId inquiryId : ObjectId)
  (message : option string) (quotation : option Q)
  (p : Partner.t) (d : Inquiry.t) :
  online st = true ->
  Inquiries st !! inquiryId = Some d ->
  Inquiry.clientId d = clientId ->
  cancellable (Inquiry.status d) = true ->
  List.find (fun p => N.eqb (Partner.userId p) userId) (Partners st) = Some p ->
  is_assigned (Partner._id p) d = true ->
  let '(st1, reply1) := cancelInquiry st clock1 clientId inquiryId in
  let '(st2, reply2) := respondToLead st1 clock2 userId inquiryId message quotation in
  let '(st3, reply3) := cancelInquiry st2 clock3 clientId inquiryId in
  http_status reply1 = 200%nat
  /\ (exists d1, Inquiries st1 !! inquiryId = Some d1
                 /\ Inquiry.status d1 = cancelled)
  /\ http_status reply2 = 200%nat
  /\ (exists d2, Inquiries st2 !! inquiryId = Some d2
                 /\ Inquiry.status d2 = responded)
  /\ http_status reply3 = 200%nat
  /\ (exists d3, Inquiries st3 !! inquiryId = Some d3
                 /\ Inquiry.status d3 = cancelled).
Proof.
  intros Hon Hd Hc Hs Hp Ha.
  rewrite (cancelInquiry_hit st clock1 clientId inquiryId d Hon Hd Hc Hs).
  erewrite respondToLead_hit;
    [| exact Hon | exact Hp | cbn [Inquiries]; apply lookup_insert_eq | exact Ha].
  erewrite cancelInquiry_hit;
    [| exact Hon | cbn [Inquiries]; apply lookup_insert_eq | exact Hc | reflexivity].
  cbn [Inquiries].
  split; [reflexivity|].
  split; [eexists; split; [apply lookup_insert_eq | reflexivity]|].
  split; [reflexivity|].
  split; [eexists; split; [apply lookup_insert_eq | reflexivity]|].
  split; [reflexivity|].
  eexists; split; [apply lookup_insert_eq | reflexivity].
Qed.

(** Inquiry 7 is distributed to partners 1 and 2; its client cancels it,
    partner A, of user 101, responds, and the client cancels again. *)
Lemma cancelInquiry_respondToLead_cancelInquiry_witness :
  let st := fst (distributeInquiry store0 clock0 7 [1%N; 2%N]) in
  let '(st1, reply1) := cancelInquiry st clock0 500 7 in
  let '(st2, reply2) := respondToLead st1 clock0 101 7 None (Some 40000) in
  let '(st3, reply3) := cancelInquiry st2 clock0 500 7 in
  http_status reply1 = 200%nat
  /\ (exists d1, Inquiries st1 !! 7%N = Some d1 /\ Inquiry.status d1 = cancelled)
  /\ http_status reply2 = 200%nat
  /\ (exists d2, Inquiries st2 !! 7%N = Some d2 /\ Inquiry.status d2 = responded)
  /\ http_status reply3 = 200%nat
  /\ (exists d3, Inquiries st3 !! 7%N = Some d3 /\ Inquiry.status d3 = cancelled).
Proof.
  intros st.
  apply (cancelInquiry_respondToLead_cancelInquiry st clock0 clock0 clock0
           500 101 7 None (Some 40000) partner_A
           (set_assignedPartners_status (assignments_from clock0 0 [1%N; 2%N])
              assigned (clock0 2) inquiry_mumbai)).
  - reflexivity.
  - vm_compute. reflexivity.
  - reflexivity.
  - reflexivity.
  - reflexivity.
  - reflexivity.
Defined.

(** ** Booking *)

Lemma update_partner_by_id_others id f l q :
  (forall p, Partner._id (f p) = Partner._id p) ->
  In q (update_partner_by_id id f l) -> Partner._id q <> id -> In q l.
Proof.
  intros Hf. induction l as [|p l IH]; [trivial|]. cbn [update_partner_by_id].
  destruct (N.eqb (Partner._id p) id) eqn:E; cbn [In].
  - intros [<- | H] Hne; [|now right].
    apply N.eqb_eq in E. rewrite Hf in Hne. contradiction.
  - intros [<- | H] Hne; [now left | right; now apply IH].
Qed.

Lemma update_partner_by_id_hit id f l p :
  List.find (fun p => N.eqb (Partner._id p) id) l = Some p ->
  In (f p) (update_partner_by_id id f l).
Proof.
  induction l as [|q l IH]; [discriminate|].
  cbn [List.find update_partner_by_id].
  destruct (N.eqb (Partner._id q) id).
  - intros H. injection H as <-. now left.
  - intros H. right. now apply IH.
Qed.

Lemma is_assigned_In pid d :
  is_assigned pid d = true <-> In pid (map Inquiry.partnerId (Inquiry.assignedPartners d)).
Proof.
  unfold is_assigned. rewrite existsb_exists, in_map_iff. split.
  - intros [a [Ha E]]. apply N.eqb_eq in E. eauto.
  - intros [a [E Ha]]. exists a. split; [exact Ha | now apply N.eqb_eq].
Qed.

Lemma update_partner_by_id_Forall2 id f l :
  List.Forall2 (fun q q' => q' = q \/ (Partner._id q = id /\ q' = f q))
               l (update_partner_by_id id f l).
Proof.
  induction l as [|q l IH]; [constructor|]. cbn [update_partner_by_id].
  destruct (N.eqb (Partner._id q) id) eqn:E.
  - constructor; [right; split; [now apply N.eqb_eq | reflexivity]|].
    clear. induction l; constructor; auto.
  - constructor; [now left | exact IH].
Qed.

(** X17. The client of an inquiry can select any partner the inquiry is
    assigned to, whatever the status of the inquiry: the answer is 200,
    the inquiry is booked with that partner selected, and the assignment
    list keeps its partners and their order. The partner collection keeps
    its documents and their order: each document is as it was, or is a
    document of the selected partner with [totalBookings] raised by one
    and nothing else changed; and when the selected partner has a
    document, its first one is so raised. *)
Theorem selectPartner_books
  (st : Store) (clock : nat -> Date) (clientId inquiryId partnerId : ObjectId)
  (d : Inquiry.t) :
  online st = true ->
  Inquiries st !! inquiryId = Some d ->
  Inquiry.clientId d = clientId ->
  is_assigned partnerId d = true ->
  let '(st', reply) := selectPartner st clock clientId inquiryId partnerId in
  http_status reply = 200%nat
  /\ (exists d',
        Inquiries st' !! inquiryId = Some d'
        /\ Inquiry.status d' = booked
        /\ Inquiry.selectedPartner d' = Some partnerId
        /\ map Inquiry.partnerId (Inquiry.assignedPartners d')
           = map Inquiry.partnerId (Inquiry.assignedPartners d)
        /\ In partnerId (map Inquiry.partnerId (Inquiry.assignedPartners d')))
  /\ List.Forall2
       (fun q q' => q' = q
                    \/ (Partner._id q = partnerId /\ q' = inc_totalBookings q))
       (Partners st) (Partners st')
  /\ (forall p,
        List.find (fun p => N.eqb (Partner._id p) partnerId) (Partners st) = Some p ->
        In (inc_totalBookings p) (Partners st')
        /\ Partner.totalBookings (inc_totalBookings p) = Partner.totalBookings p + 1).
Proof.
  intros Hon Hd Hc Ha. unfold selectPartner.
  rewrite (Inquiry_findOneAndUpdate_hit st inquiryId _ _ d Hon Hd)
    by (rewrite Hc, N.eqb_refl, Ha; reflexivity).
  split; [reflexivity|].
  assert (Hids : map Inquiry.partnerId
                   (update_first_assigned partnerId accept_response
                      (Inquiry.assignedPartners d))
                 = map Inquiry.partnerId (Inquiry.assignedPartners d))
    by (now apply update_first_assigned_partnerId).
  split.
  { eexists. cbn [Inquiries]. split; [apply lookup_insert_eq|].
    unfold set_selected.
    cbn [with_assignments_status Inquiry.status Inquiry.selectedPartner
           Inquiry.assignedPartners].
    repeat split; [exact Hids|]. rewrite Hids. now apply is_assigned_In. }
  cbn [Partners]. split; [apply update_partner_by_id_Forall2|].
  intros p Hp. split; [now apply update_partner_by_id_hit | reflexivity].
Qed.

(** Inquiry 7 is distributed to partners 1 and 2; its client, 500, then
    selects partner 1, partner A of the sample store. *)
Lemma selectPartner_books_witness :
  let st := fst (distributeInquiry store0 clock0 7 [1%N; 2%N]) in
  let d := set_assignedPartners_status (assignments_from clock0 0 [1%N; 2%N])
             assigned (clock0 2) inquiry_mumbai in
  let '(st', reply) := selectPartner st clock0 500 7 1 in
  http_status reply = 200%nat
  /\ (exists d',
        Inquiries st' !! 7%N = Some d'
        /\ Inquiry.status d' = booked
        /\ Inquiry.selectedPartner d' = Some 1%N
        /\ map Inquiry.partnerId (Inquiry.assignedPartners d')
           = map Inquiry.partnerId (Inquiry.assignedPartners d)
        /\ In 1%N (map Inquiry.partnerId (Inquiry.assignedPartners d')))
  /\ List.Forall2
       (fun q q' => q' = q
                    \/ (Partner._id q = 1%N /\ q' = inc_totalBookings q))
       (Partners st) (Partners st')
  /\ (forall p,
        List.find (fun p => N.eqb (Partner._id p) 1) (Partners st) = Some p ->
        In (inc_totalBookings p) (Partners st')
        /\ Partner.totalBookings (inc_totalBookings p) = Partner.totalBookings p + 1).
Proof.
  intros st d.
  apply (selectPartner_books st clock0 500 7 1 d).
  - reflexivity.
  - vm_compute. reflexivity.
  - reflexivity.
  - reflexivity.
Defined.

(** X18. A request to select a partner is refused with 404, and changes
    neither an inquiry nor a booking count, when the inquiry is not the
    client's or is not assigned to that partner. *)
Theorem selectPartner_refused
  (st : Store) (clock : nat -> Date) (clientId inquiryId partnerId : ObjectId)
  (d : Inquiry.t) :
  online st = true ->
  Inquiries st !! inquiryId = Some d ->
  Inquiry.clientId d <> clientId \/ is_assigned partnerId d = false ->
  fst (selectPartner st clock clientId inquiryId partnerId) = st
  /\ http_status (snd (selectPartner st clock clientId inquiryId partnerId))
     = 404%nat.
Proof.
  intros Hon Hd Hwhy. unfold selectPartner.
  rewrite Inquiry_findOneAndUpdate_miss; [split; reflexivity | exact Hon |].
  intros d0 Hd0. rewrite Hd in Hd0. injection Hd0 as <-.
  apply andb_false_iff.
  destruct Hwhy as [Hc | Ha]; [left; now apply N.eqb_neq | now right].
Qed.

(** Inquiry 8 is not assigned to partner 1. *)
Lemma selectPartner_refused_witness :
  fst (selectPartner store0 clock0 500 8 1) = store0
  /\ http_status (snd (selectPartner store0 clock0 500 8 1)) = 404%nat.
Proof.
  apply (selectPartner_refused store0 clock0 500 8 1 inquiry_assigned).
  - reflexivity.
  - vm_compute. reflexivity.
  - right. reflexivity.
Defined.

(** X19. A booking never lowers a partner's score: raising
    [totalBookings] by one, as [selectPartner] does, leaves the score
    against any inquiry where it was or above. *)
Theorem booking_never_lowers_score (p : Partner.t) (i : Inquiry.t) :
  calculateMatchScore p i <= calculateMatchScore (inc_totalBookings p) i.
Proof.
  unfold calculateMatchScore.
  cbn [inc_totalBookings Partner.isFeatured Partner.rating Partner.businessInfo
         Partner.location Partner.totalBookings].
  set (b := Partner.totalBookings p).
  assert (Hb :
    (if Qlt_bool 0 b then Math_min b 10 else 0)
      <= (if Qlt_bool 0 (b + 1) then Math_min (b + 1) 10 else 0)).
  { unfold Math_min.
    destruct (Qlt_bool 0 b) eqn:E1; destruct (Qlt_bool 0 (b + 1)) eqn:E2;
      destruct (Qle_bool b 10) eqn:E3; destruct (Qle_bool (b + 1) 10) eqn:E4;
      try apply Qlt_bool_iff in E1; try apply Qlt_bool_iff in E2;
      try apply Qle_bool_iff in E3; try apply Qle_bool_iff in E4;
      try (apply negb_false_iff in E1; apply Qle_bool_iff in E1);
      try (apply negb_false_iff in E2; apply Qle_bool_iff in E2);
      try apply Qle_bool_false in E3; try apply Qle_bool_false in E4;
      lra. }
  destruct (Partner.isFeatured p);
    destruct (Qlt_bool 0 (Partner.average (Partner.rating p)));
    destruct (String.eqb _ _);
    destruct (Inquiry.budget i) as [bd|];
    try destruct (Qle_bool _ (max bd) && _)%bool;
    try destruct (Qge_bool _ (min bd) && _)%bool;
    destruct (Qlt_bool 0 b); destruct (Qlt_bool 0 (b + 1));
    destruct (_ <=? 3)%nat;
    lra.
Qed.

(** * The user model *)

Lemma decimal_digits_nonempty (fuel : nat) :
  forall n acc, decimal_digits fuel n acc <> EmptyString.
Proof.
  induction fuel as [|fuel IH]; intros n acc; cbn [decimal_digits].
  - discriminate.
  - destruct (n / 10 =? 0)%Z; [discriminate | apply IH].
Qed.

Lemma Number_toString_nonempty (n : Z) : Number_toString n <> EmptyString.
Proof.
  unfold Number_toString. destruct (n <? 0)%Z;
    [discriminate | apply decimal_digits_nonempty].
Qed.

(** A number with [k + 1] decimal digits prints [k + 1] characters. *)
Lemma decimal_digits_length (k : nat) :
  forall fuel n acc,
    (10 ^ Z.of_nat k <= n < 10 ^ Z.of_nat (S k))%Z ->
    (k <= fuel)%nat ->
    String.length (decimal_digits fuel n acc) = (String.length acc + S k)%nat.
Proof.
  induction k as [|k IH]; intros fuel n acc Hn Hfuel.
  - change (10 ^ Z.of_nat 0)%Z with 1%Z in Hn.
    change (10 ^ Z.of_nat 1)%Z with 10%Z in Hn.
    assert (Hq : (n / 10 = 0)%Z) by (apply Z.div_small; lia).
    destruct fuel; cbn [decimal_digits]; rewrite ?Hq; cbn; lia.
  - destruct fuel as [|fuel]; [lia|]. cbn [decimal_digits].
    rewrite !Nat2Z.inj_succ, !Z.pow_succ_r in Hn by lia.
    assert (Hq : (10 ^ Z.of_nat k <= n / 10 < 10 ^ Z.of_nat (S k))%Z).
    { rewrite Nat2Z.inj_succ, Z.pow_succ_r by lia. split.
      - apply Z.div_le_lower_bound; lia.
      - apply Z.div_lt_upper_bound; lia. }
    assert (Hpos : (0 < 10 ^ Z.of_nat k)%Z) by (apply Z.pow_pos_nonneg; lia).
    destruct (n / 10 =? 0)%Z eqn:E; [apply Z.eqb_eq in E; lia|].
    rewrite (IH fuel (n / 10)%Z _ Hq) by lia. cbn. lia.
Qed.

Lemma otp_number_range (random : Q) :
  0 <= random -> random < 1 ->
  (100000 <= Math_floor (100000 + random * 900000) <= 999999)%Z.
Proof.
  intros H0 H1. unfold Math_floor. split.
  - change 100000%Z with (Qfloor (inject_Z 100000)) at 1.
    apply Qfloor_resp_le. unfold inject_Z. lra.
  - assert (H : (Qfloor (100000 + random * 900000) < 1000000)%Z); [|lia].
    rewrite Zlt_Qlt.
    eapply Qle_lt_trans; [apply Qfloor_le|]. unfold inject_Z. lra.
Qed.

(** X20. With [Math.random()] in its range, from 0 up to but not
    including 1, the code [generateOTP] returns is the decimal form of a
    whole number between 100000 and 999999, and so has exactly six
    characters. *)
Theorem generateOTP_six_digits (random : Q) (now : Date) (u : User.t) :
  0 <= random -> random < 1 ->
  exists n : Z,
    (100000 <= n <= 999999)%Z
    /\ snd (generateOTP random now u) = Number_toString n
    /\ String.length (snd (generateOTP random now u)) = 6%nat.
Proof.
  intros H0 H1. pose proof (otp_number_range random H0 H1) as Hn.
  exists (Math_floor (100000 + random * 900000)).
  split; [exact Hn|]. split; [reflexivity|].
  cbn [generateOTP snd]. set (n := Math_floor _) in *.
  unfold Number_toString.
  destruct (n <? 0)%Z eqn:E; [apply Z.ltb_lt in E; lia|].
  apply (decimal_digits_length 5);
    [change (10 ^ Z.of_nat 5)%Z with 100000%Z;
     change (10 ^ Z.of_nat 6)%Z with 1000000%Z; lia|].
  assert (H16 : (16 <= Z.log2 n)%Z).
  { change 16%Z with (Z.log2 100000). apply Z.log2_le_mono. lia. }
  lia.
Qed.

Lemma generateOTP_six_digits_witness :
  exists n : Z,
    (100000 <= n <= 999999)%Z
    /\ snd (generateOTP (1 # 3) 1000 user0) = Number_toString n
    /\ String.length (snd (generateOTP (1 # 3) 1000 user0)) = 6%nat.
Proof.
  apply (generateOTP_six_digits (1 # 3) 1000 user0); vm_compute;
    [discriminate | reflexivity].
Defined.

(** X21. After [generateOTP], [verifyOTP] accepts exactly the code that
    was returned, and exactly until ten minutes (600000 ms) after the time
    of generation, that moment included; whatever code the user had before
    no longer counts. *)
Theorem verifyOTP_after_generateOTP
  (random : Q) (now : Date) (u : User.t) (candidate : string) (t : Date) :
  let '(u', otp) := generateOTP random now u in
  verifyOTP u' candidate t = true
  <-> candidate = otp /\ (t <= now + 600000)%Z.
Proof.
  cbn [generateOTP]. unfold verifyOTP.
  cbn [set_otp User.otp User.code User.expiresAt].
  set (otp := Number_toString _).
  destruct (String.eqb otp EmptyString) eqn:E.
  { apply String.eqb_eq in E. now apply Number_toString_nonempty in E. }
  change (10 * 60 * 1000)%Z with 600000%Z.
  destruct (now + 600000 <? t)%Z eqn:Et.
  - apply Z.ltb_lt in Et. split; [discriminate | lia].
  - apply Z.ltb_ge in Et. rewrite String.eqb_eq. split.
    + intros ->. split; [reflexivity | exact Et].
    + intros [-> _]. reflexivity.
Qed.

(** * Pre-save hooks *)

Lemma index_order_iff (a b : Portfolio.Image) :
  Qle_bool (Portfolio.index a - Portfolio.index b) 0 = true
  <-> Portfolio.index a <= Portfolio.index b.
Proof. rewrite Qle_bool_iff. split; intros H; lra. Qed.

(** A list that is sorted already is left as it is. *)
Lemma sort_by_sorted_id {A : Type} (before : A -> A -> bool) (l : list A) :
  StronglySorted (fun a b => before a b = true) l -> sort_by before l = l.
Proof.
  induction 1 as [|x l Hs IH Hx]; [reflexivity|].
  cbn [sort_by]. rewrite IH. destruct l as [|y l]; [reflexivity|].
  cbn [insert_by]. apply List.Forall_inv in Hx. now rewrite Hx.
Qed.

Lemma images_sorted (l : list Portfolio.Image) :
  StronglySorted
    (fun a b => Qle_bool (Portfolio.index a - Portfolio.index b) 0 = true)
    (Array_sort (fun a b => Portfolio.index a - Portfolio.index b) l).
Proof.
  unfold Array_sort.
  apply (sort_by_sorted
           (fun a b => Qle_bool (Portfolio.index a - Portfolio.index b) 0)).
  - intros x y. rewrite !index_order_iff.
    destruct (Qlt_le_dec (Portfolio.index y) (Portfolio.index x)) as [H|H];
      [right; apply Qlt_le_weak, H | left; exact H].
  - intros x y z. rewrite !index_order_iff. intros H1 H2. lra.
Qed.

(** X22. The hook of the portfolio schema leaves the same images, in
    ascending order of index, images of equal index in the order they
    had; it passes no error to [next]. *)
Theorem Portfolio_pre_save_sorts_images (d : Portfolio.t) :
  let '(d', calls) := Portfolio_pre_save d in
  calls = [None]
  /\ Permutation (Portfolio.images d) (Portfolio.images d')
  /\ StronglySorted (fun a b => Portfolio.index a <= Portfolio.index b)
                    (Portfolio.images d')
  /\ forall k,
       List.filter (fun a => Qeq_bool (Portfolio.index a) k) (Portfolio.images d')
       = List.filter (fun a => Qeq_bool (Portfolio.index a) k) (Portfolio.images d).
Proof.
  unfold Portfolio_pre_save. split; [reflexivity|].
  destruct (Portfolio.images d) as [|x l] eqn:E.
  { cbn [length Nat.ltb Nat.leb]. rewrite E.
    split; [reflexivity|]. split; [constructor | reflexivity]. }
  cbn [length Nat.ltb Nat.leb Portfolio.images].
  split; [apply sort_by_Permutation|].
  split.
  - eapply StronglySorted_weaken; [|apply images_sorted].
    intros a b. apply index_order_iff.
  - intros k. apply sort_by_filter. intros a b Ha Hb.
    apply Qeq_bool_iff in Ha, Hb. apply index_order_iff.
    rewrite Ha, Hb. apply Qle_refl.
Qed.

(** X23. Running the hook of the portfolio schema a second time changes
    nothing: a portfolio that went through it once is in its final
    form. *)
Theorem Portfolio_pre_save_idempotent (d : Portfolio.t) :
  Portfolio_pre_save (fst (Portfolio_pre_save d)) = Portfolio_pre_save d.
Proof.
  destruct d as [pid ttl dsc cat imgs tgs act feat views likes].
  destruct imgs as [|x l]; [reflexivity|].
  unfold Portfolio_pre_save. cbn [fst Portfolio.images].
  change (0 <? length (x :: l))%nat with true. cbv iota.
  cbn [Portfolio.images Portfolio.partnerId Portfolio.title
         Portfolio.description Portfolio.category Portfolio.tags
         Portfolio.isActive Portfolio.isFeatured Portfolio.viewCount
         Portfolio.likeCount].
  assert (Hlen : Nat.ltb 0 (length (Array_sort
                    (fun a b => Portfolio.index a - Portfolio.index b) (x :: l)))
                 = true).
  { unfold Array_sort. rewrite sort_by_length. reflexivity. }
  rewrite Hlen. do 2 f_equal.
  unfold Array_sort at 1. apply sort_by_sorted_id, images_sorted.
Qed.

(** X24. On documents that went through their hooks without an error the
    budget filter of the search excludes nobody: if the hook of a partner
    and the budget hook of an inquiry passed no error to [next], the
    partner passes the inquiry's price test. *)
Theorem price_test_passes_after_hooks (p : Partner.t) (i : Inquiry.t) :
  no_error (Partner_pre_save p) = true ->
  no_error (Inquiry_pre_save_budget i) = true ->
  or_clause (budget_clause i) p = true.
Proof.
  unfold Partner_pre_save, Inquiry_pre_save_budget. intros Hp Hi.
  destruct (Qlt_bool (max (Partner.priceRange (Partner.businessInfo p))) _) eqn:Ep;
    [discriminate|].
  apply negb_false_iff, Qle_bool_iff in Ep.
  destruct (Inquiry.budget i) as [b|] eqn:Eb;
    [|now apply or_clause_without_budget].
  destruct (Qlt_bool (max b) (min b)) eqn:Ei; [discriminate|].
  apply negb_false_iff, Qle_bool_iff in Ei.
  now apply (or_clause_lets_every_range_through i b p).
Qed.

Lemma price_test_passes_after_hooks_witness :
  or_clause (budget_clause inquiry_mumbai) partner_E = true.
Proof.
  apply (price_test_passes_after_hooks partner_E inquiry_mumbai); reflexivity.
Defined.
